(** * The Ollama model provider (src/lib/models/providers/ollama/index.ts)

    A shallow embedding of [OllamaProvider]: configuration validation
    ([parseAndValidate]), the catalog fetch ([getDefaultModels]), the merge
    with the configured models ([getModelList]) and the two loaders
    ([loadChatModel], [loadEmbeddingModel]).

    JavaScript values are an inductive type, objects are finite maps from
    property names to values, thrown exceptions are the [Throw] branch of a
    result type, and an [async] method is a function over the log of the
    HTTP requests sent so far. *)

From Stdlib Require Import Ascii String.
From stdpp Require Import gmap strings list.

Set Warnings "-register-all".
Open Scope string_scope.

(** ** JavaScript values *)

Module JS.

(** An untyped value, as [raw : any] and the parsed JSON body are.
    A number is kept as its canonical rendering ([Number::toString], which
    identifies a number up to the sign of zero: both zeros render as [0]);
    the provider never does arithmetic, it only tests numbers for
    truthiness and converts them with [String(...)]. *)
Inductive JSValue : Type :=
  | JUndefined
  | JNull
  | JBool (b : bool)
  | JNum (repr : string)
  | JStr (s : string)
  | JObj (fields : gmap string JSValue)
  | JArr (elems : list JSValue).

(** [typeof v] *)
Definition typeof (v : JSValue) : string :=
  match v with
  | JUndefined => "undefined"
  | JNull => "object"
  | JBool _ => "boolean"
  | JNum _ => "number"
  | JStr _ => "string"
  | JObj _ | JArr _ => "object"
  end.

(** [ToBoolean]: what [!v], [v || d] and [v ? a : b] test. *)
Definition ToBoolean (v : JSValue) : bool :=
  match v with
  | JUndefined | JNull => false
  | JBool b => b
  | JNum r => negb (bool_decide (r = "0") || bool_decide (r = "NaN"))
  | JStr s => negb (bool_decide (s = ""))
  | JObj _ | JArr _ => true
  end.

(** [v.k] on a value that is neither [null] nor [undefined], for a key [k]
    that is no built-in property name (the provider reads [mode],
    [baseURL], [apiKey], [models], [name] and [model]): an own property of
    an object, [undefined] everywhere else. *)
Definition prop (v : JSValue) (k : string) : JSValue :=
  match v with
  | JObj fields => default JUndefined (fields !! k)
  | _ => JUndefined
  end.

(** [a || b] *)
Definition or_else (a b : JSValue) : JSValue :=
  if ToBoolean a then a else b.

(** [v === 'lit'] for a string literal: no conversion is applied. *)
Definition strict_eq_str (v : JSValue) (lit : string) : bool :=
  match v with
  | JStr s => bool_decide (s = lit)
  | _ => false
  end.

Definition nullish (v : JSValue) : bool :=
  match v with
  | JUndefined | JNull => true
  | _ => false
  end.

(** ** Exceptions *)

Inductive ErrorClass : Type :=
  | ClsError
  | ClsTypeError
  | ClsSyntaxError
  | ClsOther (name : string).

Record JSError : Type := mkJSError {
  err_class : ErrorClass;
  err_message : string
}.

(** [new Error(msg)] *)
Definition Error (msg : string) : JSError := mkJSError ClsError msg.

(** [new TypeError(msg)], raised by the runtime itself. *)
Definition TypeError (msg : string) : JSError := mkJSError ClsTypeError msg.

(** [err instanceof TypeError] *)
Definition instanceof_TypeError (err : JSError) : bool :=
  match err_class err with
  | ClsTypeError => true
  | _ => false
  end.

(** A computation that returns a value or throws. *)
Inductive result (A : Type) : Type :=
  | Ok (a : A)
  | Throw (e : JSError).
Arguments Ok {A} a.
Arguments Throw {A} e.

#[global] Instance result_ret : MRet result := @Ok.
#[global] Instance result_bind : MBind result := λ A B f m,
  match m with
  | Ok a => f a
  | Throw e => Throw e
  end.

(** What [OrdinaryToPrimitive] throws when neither [toString] nor
    [valueOf] yields a primitive. *)
Definition cannot_convert : JSError :=
  TypeError "Cannot convert object to primitive value".

(** [String(v)] on plain data. An object goes through [toString] and then
    [valueOf]: without an own [toString] property it inherits
    [Object.prototype.toString] and renders as [[object Object]]; with one
    (in data it is never callable) the inherited [valueOf] returns the
    object itself and the conversion throws. An array joins its elements
    with a comma, rendering [null] and [undefined] elements as the empty
    string and converting the others in order. *)
Fixpoint ToString (v : JSValue) : result string :=
  match v with
  | JUndefined => Ok "undefined"
  | JNull => Ok "null"
  | JBool true => Ok "true"
  | JBool false => Ok "false"
  | JNum r => Ok r
  | JStr s => Ok s
  | JObj fields =>
      match fields !! "toString" with
      | Some _ => Throw cannot_convert
      | None => Ok "[object Object]"
      end
  | JArr l =>
      (fix join (l : list JSValue) : result string :=
         match l with
         | [] => Ok ""
         | x :: r =>
             match (match x with
                    | JUndefined | JNull => Ok ""
                    | _ => ToString x
                    end) with
             | Throw e => Throw e
             | Ok sx =>
                 match r with
                 | [] => Ok sx
                 | _ => match join r with
                        | Throw e => Throw e
                        | Ok rest => Ok (sx +:+ "," +:+ rest)
                        end
                 end
             end
         end) l
  end.

(** The word a [TypeError] uses for a [null] or [undefined] value. *)
Definition nullish_text (v : JSValue) : string :=
  match v with
  | JNull => "null"
  | _ => "undefined"
  end.

(** [v.k] on any value: reading a property of [null] or [undefined]
    throws a [TypeError]. *)
Definition get_prop (v : JSValue) (k : string) : result JSValue :=
  if nullish v
  then Throw (TypeError ("Cannot read properties of " +:+ nullish_text v
                           +:+ " (reading '" +:+ k +:+ "')"))
  else Ok (prop v k).

End JS.
Import JS.

(** ** Configuration *)

Inductive Mode : Type := local | cloud.

(** [interface OllamaConfig] *)
Record OllamaConfig : Type := mkConfig {
  mode : Mode;
  baseURL : option string;
  apiKey : option string
}.

Definition dquote : string := String "034"%char EmptyString.

Definition msg_expected_object : string :=
  "Invalid config provided. Expected object".
Definition msg_invalid_mode : string :=
  "Invalid mode. Must be " +:+ dquote +:+ "local" +:+ dquote
    +:+ " or " +:+ dquote +:+ "cloud" +:+ dquote.
Definition msg_api_key_required : string :=
  "API Key is required for Ollama Cloud mode. Get one at https://ollama.com".

(** [mode as 'local' | 'cloud'], after the check that it is one of them. *)
Definition as_mode (m : JSValue) : Mode :=
  if strict_eq_str m "cloud" then cloud else local.

(** [raw.k ? String(raw.k) : undefined] *)
Definition string_or_undefined (v : JSValue) : result (option string) :=
  if ToBoolean v then s ← ToString v; mret (Some s) else mret None.

(** [static parseAndValidate(raw: any): OllamaConfig] *)
Definition parseAndValidate (raw : JSValue) : result OllamaConfig :=
  if negb (ToBoolean raw) || negb (bool_decide (typeof raw = "object"))
  then Throw (Error msg_expected_object)
  else
    let m := or_else (prop raw "mode") (JStr "local") in
    if negb (strict_eq_str m "local") && negb (strict_eq_str m "cloud")
    then Throw (Error msg_invalid_mode)
    else if strict_eq_str m "cloud" && negb (ToBoolean (prop raw "apiKey"))
    then Throw (Error msg_api_key_required)
    else
      b ← string_or_undefined (prop raw "baseURL");
      a ← string_or_undefined (prop raw "apiKey");
      mret {| mode := as_mode m; baseURL := b; apiKey := a |}.

(** The three failures of [parseAndValidate] are the configuration errors. *)
Definition ConfigError (e : JSError) : Prop :=
  e = Error msg_expected_object ∨ e = Error msg_invalid_mode
  ∨ e = Error msg_api_key_required.

Definition fails_with {A} (P : JSError → Prop) (r : result A) : Prop :=
  ∃ e, r = Throw e ∧ P e.

(** ** Models, requests and the asynchronous methods *)

(** [Model]: the catalog is untyped JSON, so the two fields hold whatever
    the response held. *)
Record Model : Type := mkModel {
  name : JSValue;
  key : JSValue
}.

Record ModelList : Type := mkModelList {
  embedding : list Model;
  chat : list Model
}.

(** What the registry holds for a provider;
    only the two lists that [getModelList] reads. *)
Record ConfiguredProvider : Type := mkConfiguredProvider {
  embeddingModels : list Model;
  chatModels : list Model
}.

(** The second argument of [fetch] together with its URL. *)
Record Request : Type := mkRequest {
  url : string;
  method : string;
  headers : gmap string string
}.

(** A response: its status, which the provider never looks at, and what
    [res.json()] settles to (a parsed body or the parser's exception). *)
Record Response : Type := mkResponse {
  status : nat;
  json : result JSValue
}.

(** The options object handed to [new OllamaLLM] and [new OllamaEmbedding]. *)
Record ClientOptions : Type := mkClientOptions {
  opt_baseURL : string;
  opt_model : string;
  opt_apiKey : option string
}.

Inductive ModelClient : Type :=
  | OllamaLLM (opts : ClientOptions)
  | OllamaEmbedding (opts : ClientOptions).

(** The fields [BaseModelProvider] stores. *)
Record OllamaProvider : Type := mkProvider {
  id : string;
  providerName : string;
  config : OllamaConfig
}.

(** [s || d] for [s : string | undefined]: the empty string is falsy. *)
Definition or_default (s : option string) (d : string) : string :=
  match s with
  | Some u => if bool_decide (u = "") then d else u
  | None => d
  end.

(** Truthiness of an optional string, as [if (this.config.apiKey)] tests. *)
Definition is_set (s : option string) : bool :=
  match s with
  | Some u => negb (bool_decide (u = ""))
  | None => false
  end.

(** The [placeholder] of the [baseURL] entry of [providerConfigFields],
    the only expression of the file that reads the environment:
    [process.env.DOCKER ? 'http://host.docker.internal:11434'
                        : 'http://localhost:11434']. *)
Definition baseURL_placeholder (DOCKER : option string) : string :=
  if is_set DOCKER
  then "http://host.docker.internal:11434"
  else "http://localhost:11434".

Definition is_cloud (m : Mode) : bool :=
  match m with
  | cloud => true
  | local => false
  end.

Definition msg_connect : string :=
  "Error connecting to Ollama API. Please ensure the base URL is correct and the Ollama server is running.".
Definition msg_chat_not_found : string :=
  "Error Loading Ollama Chat Model. Invalid Model Selected".
Definition msg_embedding_not_found : string :=
  "Error Loading Ollama Embedding Model. Invalid Model Selected.".

(** An [async] computation: it runs against the log of the requests sent
    so far, extends it, and resolves ([Ok]) or rejects ([Throw]). *)
Definition Async (A : Type) : Type := list Request → result A * list Request.

#[global] Instance Async_ret : MRet Async := λ A a log, (Ok a, log).
#[global] Instance Async_bind : MBind Async := λ A B f m log,
  match m log with
  | (Ok a, log') => f a log'
  | (Throw e, log') => (Throw e, log')
  end.

(** [throw e] *)
Definition throw {A} (e : JSError) : Async A := λ log, (Throw e, log).

(** Synchronous code inside an [async] body: an exception rejects. *)
Definition sync {A} (r : result A) : Async A := λ log, (r, log).

(** [try { body } catch (err) { handler }] *)
Definition try_catch {A} (body : Async A) (handler : JSError → Async A)
  : Async A := λ log,
  match body log with
  | (Ok a, log') => (Ok a, log')
  | (Throw e, log') => handler e log'
  end.

(** [arr.map(cb)] where [arr] came out of JSON: only an array has a
    callable [map]. *)
Definition array_map {B} (arr : JSValue) (cb : JSValue → result B)
  : result (list B) :=
  match arr with
  | JArr elems => mapM cb elems
  | JUndefined | JNull =>
      Throw (TypeError ("Cannot read properties of " +:+ nullish_text arr
                          +:+ " (reading 'map')"))
  | _ => Throw (TypeError "data.models.map is not a function")
  end.

(** [(m: any) => ({ name: m.name, key: m.model })] *)
Definition to_model (m : JSValue) : result Model :=
  n ← get_prop m "name";
  k ← get_prop m "model";
  mret {| name := n; key := k |}.

(** The request [getDefaultModels] builds before it calls [fetch]. *)
Definition tags_request (cfg : OllamaConfig) : Request :=
  let baseURL :=
    if is_cloud (mode cfg) then "https://ollama.com"
    else or_default (baseURL cfg) "http://localhost:11434" in
  let headers : gmap string string :=
    {[ "Content-type" := "application/json" ]} in
  let headers :=
    if is_cloud (mode cfg) && is_set (apiKey cfg)
    then <[ "Authorization" := "Bearer " +:+ default "undefined" (apiKey cfg) ]> headers
    else headers in
  {| url := baseURL +:+ "/api/tags"; method := "GET"; headers := headers |}.

(** The body of [getDefaultModels] after [res.json()] has settled. *)
Definition models_of_data (data : JSValue) : result ModelList :=
  arr ← get_prop data "models";
  models ← array_map arr to_model;
  mret {| embedding := models; chat := models |}.

Section Provider.

(** What the network answers to a request: a response, or the exception
    [fetch] rejects with (a [TypeError] when the transport fails). *)
Variable network : Request → result Response.

(** [getConfiguredModelProviderById], imported from the server registry:
    [None] is the [undefined] of a provider that is not configured. *)
Variable getConfiguredModelProviderById : string → option ConfiguredProvider.

(** [fetch(url, init)]: the request is sent, then the network answers. *)
Definition fetch (req : Request) : Async Response :=
  λ log, (network req, (log ++ [req])%list).

(** [async getDefaultModels(): Promise<ModelList>] *)
Definition getDefaultModels (this : OllamaProvider) : Async ModelList :=
  try_catch
    (res ← fetch (tags_request (config this));
     data ← sync (json res);
     sync (models_of_data data))
    (λ err,
      if instanceof_TypeError err
      then throw (Error msg_connect)
      else throw err).

(** [async getModelList(): Promise<ModelList>]; the [!] after the lookup
    is erased by the compiler, so an [undefined] lookup is dereferenced. *)
Definition getModelList (this : OllamaProvider) : Async ModelList :=
  defaultModels ← getDefaultModels this;
  match getConfiguredModelProviderById (id this) with
  | Some configProvider =>
      mret {| embedding := (embedding defaultModels
                              ++ embeddingModels configProvider)%list;
              chat := (chat defaultModels
                         ++ chatModels configProvider)%list |}
  | None =>
      throw (TypeError
        "Cannot read properties of undefined (reading 'embeddingModels')")
  end.

(** [async loadChatModel(key: string): Promise<BaseLLM<any>>] *)
Definition loadChatModel (this : OllamaProvider) (k : string)
  : Async ModelClient :=
  modelList ← getModelList this;
  match List.find (λ m, strict_eq_str (key m) k) (chat modelList) with
  | None => throw (Error msg_chat_not_found)
  | Some _ =>
      let baseURL :=
        if is_cloud (mode (config this)) then "https://ollama.com"
        else or_default (baseURL (config this)) "http://localhost:11434" in
      mret (OllamaLLM
              {| opt_baseURL := baseURL;
                 opt_model := k;
                 opt_apiKey := if is_cloud (mode (config this))
                               then apiKey (config this) else None |})
  end.

(** [async loadEmbeddingModel(key: string): Promise<BaseEmbedding<any>>] *)
Definition loadEmbeddingModel (this : OllamaProvider) (k : string)
  : Async ModelClient :=
  modelList ← getModelList this;
  match List.find (λ m, strict_eq_str (key m) k) (embedding modelList) with
  | None => throw (Error msg_embedding_not_found)
  | Some _ =>
      let baseURL :=
        if is_cloud (mode (config this)) then "https://ollama.com"
        else or_default (baseURL (config this)) "http://localhost:11434" in
      mret (OllamaEmbedding
              {| opt_model := k;
                 opt_baseURL := baseURL;
                 opt_apiKey := if is_cloud (mode (config this))
                               then apiKey (config this) else None |})
  end.

End Provider.

(** ** The configuration form *)

(** An entry of the [options] of a select field. *)
Record SelectOption : Type := mkSelectOption {
  option_name : string;
  option_value : string
}.

(** [UIConfigField], with the properties the literals of this file give;
    a property a literal leaves out is [None]. *)
Record UIConfigField : Type := mkUIConfigField {
  field_type : string;
  field_name : string;
  field_key : string;
  field_description : string;
  field_required : bool;
  field_default : option string;
  field_options : option (list SelectOption);
  field_placeholder : option string;
  field_env : option string;
  field_scope : string
}.

(** [const providerConfigFields: UIConfigField[]], evaluated once with the
    value of [process.env.DOCKER]. *)
Definition providerConfigFields (DOCKER : option string)
  : list UIConfigField :=
  [ {| field_type := "select";
       field_name := "Mode";
       field_key := "mode";
       field_description := "Choose between Local Ollama or Ollama Cloud";
       field_required := true;
       field_default := Some "local";
       field_options :=
         Some [ {| option_name := "Local (Self-hosted)";
                   option_value := "local" |};
                {| option_name := "Cloud (ollama.com)";
                   option_value := "cloud" |} ];
       field_placeholder := None;
       field_env := None;
       field_scope := "server" |};
    {| field_type := "string";
       field_name := "Base URL";
       field_key := "baseURL";
       field_description := "Only required for Local mode";
       field_required := false;
       field_default := None;
       field_options := None;
       field_placeholder := Some (baseURL_placeholder DOCKER);
       field_env := Some "OLLAMA_BASE_URL";
       field_scope := "server" |};
    {| field_type := "string";
       field_name := "API Key";
       field_key := "apiKey";
       field_description := "Required for Cloud mode. Get one at ollama.com";
       field_required := false;
       field_default := None;
       field_options := None;
       field_placeholder := Some "ollama_xxxxxxxxxxxxx";
       field_env := Some "OLLAMA_API_KEY";
       field_scope := "server" |} ].

(** [static getProviderConfigFields(): UIConfigField[]] *)
Definition getProviderConfigFields (DOCKER : option string)
  : list UIConfigField :=
  providerConfigFields DOCKER.

Record ProviderMetadata : Type := mkProviderMetadata {
  metadata_key : string;
  metadata_name : string
}.

(** [static getProviderMetadata(): ProviderMetadata] *)
Definition getProviderMetadata : ProviderMetadata :=
  {| metadata_key := "ollama"; metadata_name := "Ollama" |}.

(** The values a select field offers; none for a field without options. *)
Definition offered_values (f : UIConfigField) : list string :=
  match field_options f with
  | Some opts => map option_value opts
  | None => []
  end.

(** [r] is a returned value (no exception). *)
Definition succeeds {A} (r : result A) : Prop := ∃ a, r = Ok a.

(** ** The specification's vocabulary *)

(** An object in the sense of the first guard of [parseAndValidate]:
    arrays are objects, [null] is not. *)
Definition is_object (v : JSValue) : bool :=
  match v with
  | JObj _ | JArr _ => true
  | _ => false
  end.

(** A property is absent when reading it gives [undefined]. *)
Definition absent (v : JSValue) : Prop := v = JUndefined.

(** The mode as the specification words it: [local] when the property is
    absent, the property's value otherwise. *)
Definition mode_defaulted_when_absent (raw : JSValue) : JSValue :=
  match prop raw "mode" with
  | JUndefined => JStr "local"
  | v => v
  end.

(** The failure condition as the specification words it. *)
Definition stated_failure (raw : JSValue) : Prop :=
  is_object raw = false
  ∨ (mode_defaulted_when_absent raw ≠ JStr "local"
     ∧ mode_defaulted_when_absent raw ≠ JStr "cloud")
  ∨ (mode_defaulted_when_absent raw = JStr "cloud"
     ∧ (absent (prop raw "apiKey") ∨ prop raw "apiKey" = JStr "")).

(** The mode the code computes: [raw.mode || 'local']. *)
Definition effective_mode (raw : JSValue) : JSValue :=
  or_else (prop raw "mode") (JStr "local").

(** The failure condition of the code: every falsy [mode] is defaulted and
    every falsy [apiKey] counts as missing. *)
Definition actual_failure (raw : JSValue) : Prop :=
  is_object raw = false
  ∨ (effective_mode raw ≠ JStr "local" ∧ effective_mode raw ≠ JStr "cloud")
  ∨ (effective_mode raw = JStr "cloud"
     ∧ ToBoolean (prop raw "apiKey") = false).

(** The object literal [parseAndValidate] returns once its three checks
    have passed: the two conversions run in order and may throw. *)
Definition returned_config (raw : JSValue) : result OllamaConfig :=
  b ← string_or_undefined (prop raw "baseURL");
  a ← string_or_undefined (prop raw "apiKey");
  mret {| mode := as_mode (effective_mode raw); baseURL := b; apiKey := a |}.

Definition cloud_host : string := "https://ollama.com".
Definition local_default : string := "http://localhost:11434".

(** Base-URL resolution as the specification words it; the source has no
    such function, each method repeats the conditional expression. A base
    URL is set when it is a non-empty string. *)
Definition resolveBaseURL (cfg : OllamaConfig) : string :=
  match mode cfg, baseURL cfg with
  | cloud, _ => cloud_host
  | local, Some u => if bool_decide (u = "") then local_default else u
  | local, None => local_default
  end.

(** The projection of a catalog entry the specification describes. *)
Definition project (entry : JSValue) : Model :=
  {| name := prop entry "name"; key := prop entry "model" |}.

(** [k] is the key of some model of the list, by exact match. *)
Definition has_key (k : string) (l : list Model) : Prop :=
  ∃ m, m ∈ l ∧ key m = JStr k.

(** How many models of the list carry the key [k]. *)
Definition occurrences (k : string) (l : list Model) : nat :=
  length (List.filter (λ m, strict_eq_str (key m) k) l).

Definition client_options (c : ModelClient) : ClientOptions :=
  match c with
  | OllamaLLM o | OllamaEmbedding o => o
  end.

Definition ConnectionError (e : JSError) : Prop := e = Error msg_connect.

(** What the [catch] clause of [getDefaultModels] throws for a caught
    [err]. *)
Definition rethrown (err : JSError) : JSError :=
  if instanceof_TypeError err then Error msg_connect else err.

(** The settled value of the [try] block of [getDefaultModels], given what
    the network answered. *)
Definition try_block (answer : result Response) : result ModelList :=
  res ← answer; data ← json res; models_of_data data.

Definition ModelNotFoundError (e : JSError) : Prop :=
  e = Error msg_chat_not_found ∨ e = Error msg_embedding_not_found.

(** ** Sample inputs *)

Module Samples.

Definition raw_empty : JSValue := JObj ∅.
Definition raw_cloud_x : JSValue :=
  JObj (<[ "mode" := JStr "cloud" ]> {[ "apiKey" := JStr "x" ]}).
Definition raw_mode_empty : JSValue := JObj {[ "mode" := JStr "" ]}.
Definition raw_local_empty_url : JSValue :=
  JObj (<[ "mode" := JStr "local" ]> {[ "baseURL" := JStr "" ]}).

Definition llama3_entry : JSValue :=
  JObj (<[ "name" := JStr "Llama 3" ]> {[ "model" := JStr "llama3" ]}).
Definition llama3_body : JSValue :=
  JObj {[ "models" := JArr [llama3_entry] ]}.
Definition llama3 : Model :=
  {| name := JStr "Llama 3"; key := JStr "llama3" |}.
Definition my_llama3 : Model :=
  {| name := JStr "My Llama"; key := JStr "llama3" |}.

(** A server that answers every request with the one-model catalog. *)
Definition net_llama3 (_ : Request) : result Response :=
  Ok {| status := 200; json := Ok llama3_body |}.
(** A server that answers with a JSON object without [models]. *)
Definition net_no_models (_ : Request) : result Response :=
  Ok {| status := 200; json := Ok (JObj ∅) |}.
(** No server: [fetch] rejects with its [TypeError]. *)
Definition net_down (_ : Request) : result Response :=
  Throw (TypeError "fetch failed").
(** A server whose body is not JSON: [res.json()] rejects. *)
Definition net_bad_json (_ : Request) : result Response :=
  Ok {| status := 200;
        json := Throw (mkJSError ClsSyntaxError
                         "Unexpected token < in JSON at position 0") |}.

Definition registry_llama3 (_ : string) : option ConfiguredProvider :=
  Some {| embeddingModels := []; chatModels := [my_llama3] |}.
Definition registry_empty (_ : string) : option ConfiguredProvider := None.

Definition local_provider : OllamaProvider :=
  {| id := "p1"; providerName := "Ollama";
     config := {| mode := local; baseURL := None; apiKey := None |} |}.
Definition cloud_provider : OllamaProvider :=
  {| id := "p2"; providerName := "Ollama Cloud";
     config := {| mode := cloud; baseURL := None; apiKey := Some "x" |} |}.

End Samples.

Module MoreSamples.

Definition raw_cloud_with_url : JSValue :=
  JObj (<[ "mode" := JStr "cloud" ]>
          (<[ "apiKey" := JStr "secret" ]>
             {[ "baseURL" := JStr "http://x:1" ]})).
Definition raw_local_with_key : JSValue :=
  JObj (<[ "baseURL" := JStr "http://x:1" ]> {[ "apiKey" := JStr "secret" ]}).

Definition local_with_key : OllamaConfig :=
  {| mode := local; baseURL := Some "http://x:1"; apiKey := Some "secret" |}.
Definition local_with_key_provider : OllamaProvider :=
  {| id := "p3"; providerName := "Ollama"; config := local_with_key |}.

(** A catalog whose second entry is [null]. *)
Definition body_with_null : JSValue :=
  JObj {[ "models" := JArr [Samples.llama3_entry; JNull] ]}.
Definition net_with_null (_ : Request) : result Response :=
  Ok {| status := 200; json := Ok body_with_null |}.

(** The one-model catalog under an error status. *)
Definition net_llama3_500 (_ : Request) : result Response :=
  Ok {| status := 500; json := Ok Samples.llama3_body |}.

Definition mistral : Model :=
  {| name := JStr "Mistral"; key := JStr "mistral" |}.
(** A registry with one model, configured for chat only. *)
Definition registry_mistral (_ : string) : option ConfiguredProvider :=
  Some {| embeddingModels := []; chatModels := [mistral] |}.

End MoreSamples.

(** ** Configuration validation *)

Section ParseAndValidate.

Implicit Types (raw : JSValue) (cfg : OllamaConfig).

Lemma guard_is_object raw :
  negb (ToBoolean raw) || negb (bool_decide (typeof raw = "object"))
  = negb (is_object raw).
Proof.
  destruct raw as [| |[]| | | |]; try reflexivity;
    unfold typeof; apply orb_true_r.
Qed.

Lemma strict_eq_str_true (v : JSValue) (s : string) :
  strict_eq_str v s = true ↔ v = JStr s.
Proof.
  destruct v; simpl; try (split; [discriminate | congruence]).
  rewrite bool_decide_eq_true. split; congruence.
Qed.

Lemma strict_eq_str_false (v : JSValue) (s : string) :
  strict_eq_str v s = false ↔ v ≠ JStr s.
Proof.
  rewrite <- strict_eq_str_true. destruct (strict_eq_str v s); naive_solver.
Qed.

(** The result of [parseAndValidate], branch by branch. *)
Lemma parseAndValidate_cases raw :
  (is_object raw = false
     ∧ parseAndValidate raw = Throw (Error msg_expected_object))
  ∨ (is_object raw = true
     ∧ effective_mode raw ≠ JStr "local" ∧ effective_mode raw ≠ JStr "cloud"
     ∧ parseAndValidate raw = Throw (Error msg_invalid_mode))
  ∨ (is_object raw = true
     ∧ effective_mode raw = JStr "cloud"
     ∧ ToBoolean (prop raw "apiKey") = false
     ∧ parseAndValidate raw = Throw (Error msg_api_key_required))
  ∨ (is_object raw = true
     ∧ (effective_mode raw = JStr "local"
        ∨ effective_mode raw = JStr "cloud"
          ∧ ToBoolean (prop raw "apiKey") = true)
     ∧ parseAndValidate raw = returned_config raw).
Proof.
  unfold parseAndValidate, returned_config. rewrite guard_is_object.
  fold (effective_mode raw).
  destruct (is_object raw); simpl; [| by left].
  right.
  destruct (strict_eq_str (effective_mode raw) "local") eqn:Hl.
  - apply strict_eq_str_true in Hl. rewrite Hl. simpl. right; right. auto.
  - destruct (strict_eq_str (effective_mode raw) "cloud") eqn:Hc; simpl.
    + apply strict_eq_str_true in Hc.
      destruct (ToBoolean (prop raw "apiKey")) eqn:Hk; simpl.
      * right; right. auto.
      * right; left. auto.
    + apply strict_eq_str_false in Hl, Hc. left. auto.
Qed.

End ParseAndValidate.

Lemma ToBoolean_false_iff (v : JSValue) :
  ToBoolean v = false
  ↔ v = JUndefined ∨ v = JNull ∨ v = JBool false
    ∨ v = JNum "0" ∨ v = JNum "NaN" ∨ v = JStr "".
Proof.
  split.
  - destruct v as [| |[]|r|s|f|l]; simpl; try discriminate; auto.
    + rewrite negb_false_iff, orb_true_iff, !bool_decide_eq_true.
      intros [->| ->]; auto 6.
    + rewrite negb_false_iff, bool_decide_eq_true. intros ->. auto 6.
  - intros [->|[->|[->|[->|[->| ->]]]]]; reflexivity.
Qed.

Lemma ConfigError_messages_distinct :
  msg_expected_object ≠ msg_invalid_mode
  ∧ msg_expected_object ≠ msg_api_key_required
  ∧ msg_invalid_mode ≠ msg_api_key_required.
Proof. repeat split; discriminate. Qed.

(** C1, as stated, fails: for the raw configuration [{mode: ""}] the mode
    is present and is neither [local] nor [cloud], so the stated condition
    holds, yet [parseAndValidate] succeeds (the empty string is falsy and
    [raw.mode || 'local'] replaces it). *)
Lemma parseAndValidate_stated_failure_counterexample :
  ¬ (fails_with ConfigError (parseAndValidate Samples.raw_mode_empty)
     ↔ stated_failure Samples.raw_mode_empty).
Proof.
  intros [_ H].
  destruct H as (e & He & _).
  - right; left. split; vm_compute; discriminate.
  - vm_compute in He. discriminate.
Qed.

Lemma ToString_error :
  ∀ (v : JSValue) (e : JSError), ToString v = Throw e → e = cannot_convert.
Proof.
  fix IH 1. intros [| |[]|r|s|fields|l] e; simpl; try discriminate.
  - destruct (fields !! "toString"); [| discriminate]. by intros [= <-].
  - revert l e. fix IHl 1. intros [|x l] e; [discriminate |].
    pose proof (IHl l) as IHtail. clear IHl.
    pose proof (IH x) as IHx.
    destruct (match x with
              | JUndefined | JNull => Ok ""
              | _ => ToString x
              end) as [sx|ex] eqn:Hx.
    + destruct l as [|y l']; [discriminate |].
      match goal with
      | |- match ?j with _ => _ end = _ → _ =>
          destruct j as [rest|er] eqn:Hr
      end.
      * discriminate.
      * intros [= <-]. by apply IHtail.
    + intros [= <-].
      destruct x; try discriminate Hx; by apply IHx.
Qed.

Lemma string_or_undefined_error (v : JSValue) (e : JSError) :
  string_or_undefined v = Throw e → e = cannot_convert.
Proof.
  unfold string_or_undefined. destruct (ToBoolean v); [| discriminate].
  destruct (ToString v) as [s|e'] eqn:Hs; simpl; [discriminate |].
  intros [= <-]. by eapply ToString_error.
Qed.

Lemma string_or_undefined_falsy (v : JSValue) :
  ToBoolean v = false → string_or_undefined v = Ok None.
Proof. unfold string_or_undefined. by intros ->. Qed.

Lemma string_or_undefined_str (s : string) :
  string_or_undefined (JStr s) = Ok (if bool_decide (s = "") then None else Some s).
Proof.
  unfold string_or_undefined. simpl. by destruct (bool_decide (s = "")).
Qed.

Lemma returned_config_ok (raw : JSValue) (cfg : OllamaConfig) :
  returned_config raw = Ok cfg
  ↔ string_or_undefined (prop raw "baseURL") = Ok (baseURL cfg)
    ∧ string_or_undefined (prop raw "apiKey") = Ok (apiKey cfg)
    ∧ mode cfg = as_mode (effective_mode raw).
Proof.
  unfold returned_config.
  destruct (string_or_undefined (prop raw "baseURL")) as [b|e]; simpl.
  - destruct (string_or_undefined (prop raw "apiKey")) as [a|e]; simpl.
    + split.
      * by intros [= <-].
      * intros ([= ->] & [= ->] & Hm). destruct cfg. simpl in *. by subst.
    + split; [discriminate | by intros (_ & ? & _)].
  - split; [discriminate | by intros (? & _)].
Qed.

Lemma returned_config_error (raw : JSValue) (e : JSError) :
  returned_config raw = Throw e → e = cannot_convert.
Proof.
  unfold returned_config.
  destruct (string_or_undefined (prop raw "baseURL")) as [b|e1] eqn:Hb; simpl.
  - destruct (string_or_undefined (prop raw "apiKey")) as [a|e2] eqn:Ha;
      simpl; [discriminate |].
    intros [= <-]. by eapply string_or_undefined_error.
  - intros [= <-]. by eapply string_or_undefined_error.
Qed.

Lemma cannot_convert_not_ConfigError : ¬ ConfigError cannot_convert.
Proof. by intros [H|[H|H]]. Qed.

(** C1, amended: [parseAndValidate raw] fails with a configuration error
    if and only if [raw] is not an object, or [raw.mode || 'local'] is
    neither the string [local] nor the string [cloud], or it is [cloud] and
    [raw.apiKey] is falsy. It returns a configuration exactly when none of
    these holds and the conversions [String(raw.baseURL)] and
    [String(raw.apiKey)] of the truthy properties return; the configuration
    then holds these strings, and undefined for a falsy property. Its only
    other failure is the [TypeError] of such a conversion. The empty object
    gives [{mode: local}] with both fields undefined, and
    [{mode: "cloud", apiKey: "x"}] gives mode [cloud] and key [x]. *)
Theorem parseAndValidate_correct (raw : JSValue) :
  (fails_with ConfigError (parseAndValidate raw) ↔ actual_failure raw)
  ∧ (∀ cfg,
       parseAndValidate raw = Ok cfg
       ↔ ¬ actual_failure raw
         ∧ string_or_undefined (prop raw "baseURL") = Ok (baseURL cfg)
         ∧ string_or_undefined (prop raw "apiKey") = Ok (apiKey cfg)
         ∧ mode cfg = as_mode (effective_mode raw))
  ∧ (∀ e, parseAndValidate raw = Throw e →
          ConfigError e ∨ (¬ actual_failure raw ∧ e = cannot_convert))
  ∧ parseAndValidate (JObj ∅)
    = Ok {| mode := local; baseURL := None; apiKey := None |}
  ∧ parseAndValidate Samples.raw_cloud_x
    = Ok {| mode := cloud; baseURL := None; apiKey := Some "x" |}.
Proof.
  assert (is_object raw = true →
          (effective_mode raw = JStr "local"
           ∨ effective_mode raw = JStr "cloud"
             ∧ ToBoolean (prop raw "apiKey") = true) →
          ¬ actual_failure raw) as Hpass.
  { intros Ho Hm [Hn|[[Hl Hc]|[Hc Hk]]]; [congruence | |].
    - destruct Hm as [Hm|[Hm _]]; contradiction.
    - destruct Hm as [Hm|[_ Hm]]; congruence. }
  split; [| split; [| split; [| split; reflexivity]]].
  - split.
    + intros (e & He & Hcfg).
      destruct (parseAndValidate_cases raw)
        as [[Ho _]|[(Ho & Hl & Hc & _)|[(Ho & Hc & Hk & _)|(_ & _ & Hret)]]].
      * by left.
      * right; left. done.
      * right; right. done.
      * rewrite Hret in He. apply returned_config_error in He. subst e.
        by apply cannot_convert_not_ConfigError in Hcfg.
    + intros Hfail.
      destruct (parseAndValidate_cases raw)
        as [[Ho E]|[(Ho & Hl & Hc & E)|[(Ho & Hc & Hk & E)|(Ho & Hm & _)]]];
        try (eexists; split; [exact E | unfold ConfigError; auto]).
      by apply Hpass in Hfail.
  - intros cfg.
    destruct (parseAndValidate_cases raw)
      as [[Ho E]|[(Ho & Hl & Hc & E)|[(Ho & Hc & Hk & E)|(Ho & Hm & E)]]];
      rewrite E.
    + split; [discriminate |]. intros [Hnot _]. exfalso. apply Hnot. by left.
    + split; [discriminate |]. intros [Hnot _]. exfalso. apply Hnot.
      right; left. done.
    + split; [discriminate |]. intros [Hnot _]. exfalso. apply Hnot.
      right; right. done.
    + rewrite returned_config_ok. split; [| by intros [_ H]].
      intros H. split; [by apply Hpass | exact H].
  - intros e He.
    destruct (parseAndValidate_cases raw)
      as [[Ho E]|[(Ho & Hl & Hc & E)|[(Ho & Hc & Hk & E)|(Ho & Hm & E)]]];
      rewrite E in He.
    + left. injection He as <-. by left.
    + left. injection He as <-. right; by left.
    + left. injection He as <-. right; by right.
    + right. split; [by apply Hpass | by eapply returned_config_error].
Qed.

Lemma parseAndValidate_correct_witness :
  parseAndValidate Samples.raw_cloud_x
  = Ok {| mode := cloud; baseURL := None; apiKey := Some "x" |}.
Proof.
  apply (proj1 (proj2 (parseAndValidate_correct Samples.raw_cloud_x))).
  split; [| split; [reflexivity | split; reflexivity]].
  intros [H|[[_ H]|[_ H]]]; [discriminate H | by apply H | discriminate H].
Defined.

(** C8: a falsy [mode] (the empty string, [0], [NaN], [false], [null],
    [undefined]) is treated as an absent one and defaulted to [local]: the
    object is validated exactly as the same object without the property,
    the result is the returned object literal with mode [local], so it
    never fails with a configuration error, every configuration it returns
    is local, and it does return one whenever the two string conversions
    return. *)
Theorem parseAndValidate_falsy_mode (raw : JSValue) :
  is_object raw = true →
  ToBoolean (prop raw "mode") = false →
  parseAndValidate raw
  = (b ← string_or_undefined (prop raw "baseURL");
     a ← string_or_undefined (prop raw "apiKey");
     mret {| mode := local; baseURL := b; apiKey := a |})
  ∧ (∀ b a,
       string_or_undefined (prop raw "baseURL") = Ok b →
       string_or_undefined (prop raw "apiKey") = Ok a →
       parseAndValidate raw = Ok {| mode := local; baseURL := b; apiKey := a |})
  ∧ (∀ cfg, parseAndValidate raw = Ok cfg → mode cfg = local)
  ∧ ¬ fails_with ConfigError (parseAndValidate raw)
  ∧ (∀ fields, raw = JObj fields →
       parseAndValidate raw = parseAndValidate (JObj (delete "mode" fields))).
Proof.
  intros Ho Hm.
  assert (Hgen : ∀ r, is_object r = true → ToBoolean (prop r "mode") = false →
            parseAndValidate r
            = (b ← string_or_undefined (prop r "baseURL");
               a ← string_or_undefined (prop r "apiKey");
               mret {| mode := local; baseURL := b; apiKey := a |})).
  { intros r Hr Hf. unfold parseAndValidate.
    rewrite guard_is_object, Hr. unfold or_else. rewrite Hf. reflexivity. }
  pose proof (Hgen raw Ho Hm) as Hrun.
  split; [exact Hrun |]. split; [| split; [| split]].
  - intros b a Hb Ha. rewrite Hrun, Hb. simpl. by rewrite Ha.
  - intros cfg. rewrite Hrun.
    destruct (string_or_undefined (prop raw "baseURL")); simpl;
      [| discriminate].
    destruct (string_or_undefined (prop raw "apiKey")); simpl;
      [| discriminate].
    by intros [= <-].
  - intros (e & He & Hcfg). rewrite Hrun in He.
    assert (e = cannot_convert) as ->.
    { destruct (string_or_undefined (prop raw "baseURL")) as [b|e1] eqn:Hb;
        simpl in He.
      - destruct (string_or_undefined (prop raw "apiKey")) as [a|e2] eqn:Ha;
          simpl in He; [discriminate |].
        injection He as <-. by eapply string_or_undefined_error.
      - injection He as <-. by eapply string_or_undefined_error. }
    by apply cannot_convert_not_ConfigError in Hcfg.
  - intros fields ->.
    rewrite Hrun.
    rewrite (Hgen (JObj (delete "mode" fields))).
    + simpl. by rewrite !lookup_delete_ne.
    + done.
    + simpl. by rewrite lookup_delete_eq.
Qed.

Lemma parseAndValidate_falsy_mode_witness :
  parseAndValidate Samples.raw_mode_empty
  = Ok {| mode := local; baseURL := None; apiKey := None |}.
Proof.
  exact (proj1 (proj2 (parseAndValidate_falsy_mode Samples.raw_mode_empty
                         eq_refl eq_refl))
           None None eq_refl eq_refl).
Defined.

(** C9: on success a falsy [baseURL] or [apiKey] (the empty string, [0],
    [false], [null]) becomes undefined instead of being converted to a
    string; with an undefined [baseURL] a local configuration then requests
    the catalog from the hardcoded default. *)
Theorem parseAndValidate_falsy_fields (raw : JSValue) (cfg : OllamaConfig) :
  parseAndValidate raw = Ok cfg →
  (ToBoolean (prop raw "baseURL") = false →
     baseURL cfg = None
     ∧ (mode cfg = local →
        url (tags_request cfg) = "http://localhost:11434/api/tags"))
  ∧ (ToBoolean (prop raw "apiKey") = false → apiKey cfg = None).
Proof.
  intros Hok.
  destruct (parseAndValidate_cases raw)
    as [[_ E]|[(_ & _ & _ & E)|[(_ & _ & _ & E)|(_ & _ & E)]]];
    rewrite E in Hok; try discriminate.
  apply returned_config_ok in Hok as (Hb & Ha & _).
  split.
  - intros Hf. rewrite string_or_undefined_falsy in Hb by done.
    injection Hb as Hb. split; [done |].
    intros Hm. unfold tags_request. simpl. by rewrite Hm, <- Hb.
  - intros Hf. rewrite string_or_undefined_falsy in Ha by done.
    by injection Ha as Ha.
Qed.

Lemma parseAndValidate_falsy_fields_witness :
  parseAndValidate Samples.raw_local_empty_url
  = Ok {| mode := local; baseURL := None; apiKey := None |}
  ∧ baseURL {| mode := local; baseURL := None; apiKey := None |} = None
  ∧ url (tags_request {| mode := local; baseURL := None; apiKey := None |})
    = "http://localhost:11434/api/tags".
Proof.
  split; [reflexivity |].
  pose proof (parseAndValidate_falsy_fields Samples.raw_local_empty_url
                {| mode := local; baseURL := None; apiKey := None |}
                eq_refl) as [H _].
  destruct (H eq_refl) as [H1 H2].
  split; [exact H1 | exact (H2 eq_refl)].
Defined.

(** ** The catalog fetch *)

Section CatalogFetch.

Variable network : Request → result Response.
Implicit Types (this : OllamaProvider) (log : list Request).

(** One call sends one request and settles to the outcome of the [try]
    block, with every caught error passed through the [catch] clause. *)
Lemma getDefaultModels_run this log :
  getDefaultModels network this log
  = (match try_block (network (tags_request (config this))) with
     | Ok ml => Ok ml
     | Throw e => Throw (rethrown e)
     end, log ++ [tags_request (config this)])%list.
Proof.
  unfold getDefaultModels, try_catch, try_block, fetch, sync, rethrown, throw.
  unfold mbind, Async_bind, result_bind.
  destruct (network _) as [res|e]; simpl.
  - destruct (json res) as [data|e]; simpl.
    + destruct (models_of_data data) as [ml|e]; simpl; [done |].
      by destruct (instanceof_TypeError e).
    + by destruct (instanceof_TypeError e).
  - by destruct (instanceof_TypeError e).
Qed.

Lemma getDefaultModels_log this log :
  (getDefaultModels network this log).2
  = (log ++ [tags_request (config this)])%list.
Proof. by rewrite getDefaultModels_run. Qed.

(** No [TypeError] ever leaves [getDefaultModels]. *)
Lemma getDefaultModels_never_TypeError this log e log' :
  getDefaultModels network this log = (Throw e, log') →
  instanceof_TypeError e = false.
Proof.
  rewrite getDefaultModels_run.
  destruct (try_block _) as [ml|e0]; [discriminate |].
  intros [= <- _]. unfold rethrown.
  by destruct (instanceof_TypeError e0) eqn:He.
Qed.

(** A transport failure, which [fetch] reports as a [TypeError], becomes
    the connection error. *)
Lemma getDefaultModels_transport_failure this log e :
  network (tags_request (config this)) = Throw e →
  instanceof_TypeError e = true →
  getDefaultModels network this log
  = (Throw (Error msg_connect),
     (log ++ [tags_request (config this)])%list).
Proof.
  intros Hn He. rewrite getDefaultModels_run, Hn. simpl.
  unfold rethrown. by rewrite He.
Qed.

(** An error of [fetch] or of [res.json()] that is no [TypeError] (a
    [SyntaxError] for a malformed body) reaches the caller unchanged. *)
Lemma getDefaultModels_other_error this log e :
  instanceof_TypeError e = false →
  (network (tags_request (config this)) = Throw e
   ∨ ∃ res, network (tags_request (config this)) = Ok res
            ∧ json res = Throw e) →
  getDefaultModels network this log
  = (Throw e, (log ++ [tags_request (config this)])%list).
Proof.
  intros He Hsrc. rewrite getDefaultModels_run.
  assert (try_block (network (tags_request (config this))) = Throw e) as ->.
  { destruct Hsrc as [->|(res & -> & Hj)]; [done |].
    unfold try_block. simpl. by rewrite Hj. }
  unfold rethrown. by rewrite He.
Qed.

Lemma to_model_cases m :
  (nullish m = false ∧ to_model m = Ok (project m))
  ∨ (∃ e, to_model m = Throw e ∧ instanceof_TypeError e = true).
Proof.
  unfold to_model, get_prop.
  destruct (nullish m); simpl; [right | left]; eauto.
Qed.

Lemma mapM_cons {A B} (f : A → result B) (x : A) (l : list A) :
  mapM f (x :: l) = (y ← f x; k ← mapM f l; mret (y :: k)).
Proof. reflexivity. Qed.

Lemma mapM_to_model_error entries e :
  mapM to_model entries = Throw e → instanceof_TypeError e = true.
Proof.
  induction entries as [|m l IH]; [discriminate |].
  rewrite mapM_cons.
  destruct (to_model_cases m) as [[_ ->]|(e' & -> & He')]; simpl.
  - destruct (mapM to_model l) as [k|e'']; simpl; [discriminate |].
    intros [= <-]. by apply IH.
  - by intros [= <-].
Qed.

(** Whatever goes wrong while the body is taken apart is a [TypeError]. *)
Lemma models_of_data_error data e :
  models_of_data data = Throw e → instanceof_TypeError e = true.
Proof.
  unfold models_of_data, get_prop.
  destruct (nullish data); simpl; [by intros [= <-] |].
  destruct (prop data "models") as [| |b|r|s|f|entries]; simpl;
    try by intros [= <-].
  destruct (mapM to_model entries) as [k|e'] eqn:Hl; simpl; [discriminate |].
  intros [= <-]. by eapply mapM_to_model_error.
Qed.

Lemma models_of_data_same_list data ml :
  models_of_data data = Ok ml → chat ml = embedding ml.
Proof.
  unfold models_of_data.
  destruct (get_prop data "models") as [arr|e]; simpl; [| discriminate].
  destruct (array_map arr to_model) as [models|e]; simpl; [| discriminate].
  by intros [= <-].
Qed.

(** The two lists of a resolved [getDefaultModels] are one list. *)
Lemma getDefaultModels_chat_is_embedding this log ml log' :
  getDefaultModels network this log = (Ok ml, log') →
  chat ml = embedding ml.
Proof.
  rewrite getDefaultModels_run. unfold try_block.
  destruct (network _) as [res|e]; simpl; [| discriminate].
  destruct (json res) as [data|e]; simpl; [| discriminate].
  destruct (models_of_data data) as [ml'|e] eqn:Hm; [| discriminate].
  intros [= <- _]. by eapply models_of_data_same_list.
Qed.

Lemma mapM_to_model entries :
  Forall (λ m, nullish m = false) entries →
  mapM to_model entries = Ok (map project entries).
Proof.
  induction 1 as [|m l Hm _ IH]; [done |].
  rewrite mapM_cons, IH.
  destruct (to_model_cases m) as [[_ ->]|(e & _ & _)]; [done |].
  unfold to_model, get_prop. by rewrite Hm.
Qed.

Lemma models_of_data_array data entries :
  prop data "models" = JArr entries →
  Forall (λ m, nullish m = false) entries →
  models_of_data data
  = Ok {| embedding := map project entries; chat := map project entries |}.
Proof.
  intros Hm Hent. unfold models_of_data, get_prop.
  assert (nullish data = false) as -> by (by destruct data).
  cbn [mbind result_bind]. rewrite Hm. cbn [array_map mbind result_bind].
  by rewrite (mapM_to_model entries Hent).
Qed.

End CatalogFetch.

Section CatalogFetchClaims.

Variable network : Request → result Response.
Implicit Types (this : OllamaProvider) (log : list Request).

(** A body of an unexpected shape fails inside the [try] block with a
    [TypeError], which the [catch] clause cannot tell from a transport
    failure. *)
Lemma shape_error_becomes_connection_error this log res data e :
  network (tags_request (config this)) = Ok res →
  json res = Ok data →
  models_of_data data = Throw e →
  getDefaultModels network this log
  = (Throw (Error msg_connect),
     (log ++ [tags_request (config this)])%list).
Proof.
  intros Hn Hj Hm. rewrite getDefaultModels_run, Hn.
  unfold try_block. simpl. rewrite Hj. simpl. rewrite Hm.
  unfold rethrown. by rewrite (models_of_data_error data e Hm).
Qed.

(** C6: when the catalog answers with a body whose [models] is an array of
    entries (none of them [null] or [undefined]), [getDefaultModels]
    resolves to the list of [{name: entry.name, key: entry.model}], in
    order, and returns that one list as both [chat] and [embedding]. *)
Theorem getDefaultModels_projects_catalog this log res data entries :
  network (tags_request (config this)) = Ok res →
  json res = Ok data →
  prop data "models" = JArr entries →
  Forall (λ m, nullish m = false) entries →
  ∃ models,
    models = map (λ entry, {| name := prop entry "name";
                              key := prop entry "model" |}) entries
    ∧ getDefaultModels network this log
      = (Ok {| embedding := models; chat := models |},
         (log ++ [tags_request (config this)])%list).
Proof.
  intros Hn Hj Hm Hent. eexists. split; [reflexivity |].
  rewrite getDefaultModels_run, Hn. unfold try_block. simpl.
  rewrite Hj. simpl.
  by rewrite (models_of_data_array data entries Hm Hent).
Qed.

(** C7: the one request [getDefaultModels] sends carries the header
    [Authorization: Bearer <apiKey>] exactly when the mode is [cloud] and
    the key is set (a non-empty string); in local mode it never carries
    an [Authorization] header. *)
Theorem getDefaultModels_authorization this log :
  ∃ req,
    (getDefaultModels network this log).2 = (log ++ [req])%list
    ∧ headers req !! "Authorization"
      = match mode (config this), apiKey (config this) with
        | cloud, Some k =>
            if bool_decide (k = "") then None else Some ("Bearer " +:+ k)
        | _, _ => None
        end
    ∧ headers req !! "Content-type" = Some "application/json"
    ∧ (mode (config this) = local → headers req !! "Authorization" = None).
Proof.
  exists (tags_request (config this)).
  split; [apply getDefaultModels_log |].
  unfold tags_request. cbn [headers].
  destruct (mode (config this)); cbn [is_cloud andb].
  - rewrite lookup_singleton_ne, lookup_singleton_eq by done. done.
  - destruct (apiKey (config this)) as [k|]; cbn [is_set default].
    + destruct (bool_decide (k = "")); cbn [negb].
      * rewrite lookup_singleton_ne, lookup_singleton_eq by done. done.
      * rewrite lookup_insert_eq, lookup_insert_ne, lookup_singleton_eq
          by done.
        done.
    + rewrite lookup_singleton_ne, lookup_singleton_eq by done. done.
Qed.

End CatalogFetchClaims.

(** C2, at the input where the code departs from it: the server answers
    with the JSON object [{}]. Reading [data.models.map] raises a
    [TypeError], no transport failure happened, and yet the caller receives
    the connection error instead of the error that was raised. *)
Theorem getDefaultModels_shape_error_reported_as_connection_error :
  try_block (Samples.net_no_models
               (tags_request (config Samples.local_provider)))
  = Throw (TypeError "Cannot read properties of undefined (reading 'map')")
  ∧ getDefaultModels Samples.net_no_models Samples.local_provider []
    = (Throw (Error msg_connect),
       [tags_request (config Samples.local_provider)]).
Proof. split; reflexivity. Qed.

Lemma getDefaultModels_projects_catalog_witness :
  ∃ models,
    models = [Samples.llama3]
    ∧ getDefaultModels Samples.net_llama3 Samples.local_provider []
      = (Ok {| embedding := models; chat := models |},
         [tags_request (config Samples.local_provider)]).
Proof.
  destruct (getDefaultModels_projects_catalog
              Samples.net_llama3 Samples.local_provider []
              {| status := 200; json := Ok Samples.llama3_body |}
              Samples.llama3_body [Samples.llama3_entry]
              eq_refl eq_refl eq_refl
              (@List.Forall_cons _ (λ m, nullish m = false)
                 Samples.llama3_entry [] eq_refl (@List.Forall_nil _ _)))
    as (models & Hm & Hrun).
  exists models. split; [exact Hm | exact Hrun].
Defined.

Lemma getDefaultModels_authorization_witness :
  ∃ req,
    (getDefaultModels Samples.net_llama3 Samples.cloud_provider []).2 = [req]
    ∧ headers req !! "Authorization" = Some "Bearer x".
Proof.
  destruct (getDefaultModels_authorization
              Samples.net_llama3 Samples.cloud_provider [])
    as (req & Hlog & Hauth & _).
  exists req. split; [exact Hlog | exact Hauth].
Defined.

(** ** The merged list and the loaders *)

Section ModelList.

Variable network : Request → result Response.
Variable registry : string → option ConfiguredProvider.
Implicit Types (this : OllamaProvider) (log : list Request) (k : string).

Lemma getModelList_run this log :
  getModelList network registry this log
  = match getDefaultModels network this log with
    | (Ok dm, log') =>
        match registry (id this) with
        | Some cp =>
            (Ok {| embedding := embedding dm ++ embeddingModels cp;
                   chat := chat dm ++ chatModels cp |}, log')
        | None =>
            (Throw (TypeError
               "Cannot read properties of undefined (reading 'embeddingModels')"),
             log')
        end
    | (Throw e, log') => (Throw e, log')
    end%list.
Proof.
  unfold getModelList, mbind, Async_bind.
  destruct (getDefaultModels network this log) as [[dm|e] log']; [| done].
  by destruct (registry (id this)).
Qed.

Lemma occurrences_app k (l1 l2 : list Model) :
  occurrences k (l1 ++ l2) = (occurrences k l1 + occurrences k l2)%nat.
Proof. unfold occurrences. by rewrite List.filter_app, length_app. Qed.

Lemma has_key_occurrences k (l : list Model) :
  has_key k l ↔ (1 ≤ occurrences k l)%nat.
Proof.
  unfold has_key, occurrences.
  induction l as [|m l IH]; simpl.
  - split; [intros (m & Hin & _); by apply elem_of_nil in Hin | lia].
  - destruct (strict_eq_str (key m) k) eqn:Hk; simpl.
    + split; [lia |]. intros _. exists m. split; [left |].
      by apply strict_eq_str_true.
    + rewrite <- IH. apply strict_eq_str_false in Hk.
      split; intros (m' & Hin & Hm').
      * apply elem_of_cons in Hin as [->|Hin]; [done | eauto].
      * exists m'. split; [by right | done].
Qed.

Lemma find_by_key k (l : list Model) :
  (List.find (λ m, strict_eq_str (key m) k) l = None ↔ ¬ has_key k l)
  ∧ (has_key k l →
     ∃ m, List.find (λ m, strict_eq_str (key m) k) l = Some m).
Proof.
  induction l as [|m l [IH1 IH2]]; simpl.
  - split; [| intros (m & Hin & _); by apply elem_of_nil in Hin].
    split; [| done]. intros _ (m & Hin & _). by apply elem_of_nil in Hin.
  - destruct (strict_eq_str (key m) k) eqn:Hk.
    + apply strict_eq_str_true in Hk. split; [| eauto].
      split; [discriminate |]. intros Hno. exfalso. apply Hno.
      exists m. split; [left | done].
    + apply strict_eq_str_false in Hk.
      assert (has_key k (m :: l) ↔ has_key k l) as Hiff.
      { split; intros (m' & Hin & Hm').
        - apply elem_of_cons in Hin as [->|Hin]; [done |].
          by exists m'.
        - exists m'. split; [by right | done]. }
      rewrite Hiff. split; [exact IH1 | exact IH2].
Qed.

Lemma inline_base_url (cfg : OllamaConfig) :
  (if is_cloud (mode cfg) then "https://ollama.com"
   else or_default (baseURL cfg) "http://localhost:11434")
  = resolveBaseURL cfg.
Proof.
  unfold resolveBaseURL, or_default.
  by destruct (mode cfg), (baseURL cfg).
Qed.

Lemma loadChatModel_run this k log :
  loadChatModel network registry this k log
  = match getModelList network registry this log with
    | (Ok ml, log') =>
        match List.find (λ m, strict_eq_str (key m) k) (chat ml) with
        | None => (Throw (Error msg_chat_not_found), log')
        | Some _ =>
            (Ok (OllamaLLM
                   {| opt_baseURL := resolveBaseURL (config this);
                      opt_model := k;
                      opt_apiKey := match mode (config this) with
                                    | cloud => apiKey (config this)
                                    | local => None
                                    end |}), log')
        end
    | (Throw e, log') => (Throw e, log')
    end.
Proof.
  unfold loadChatModel, mbind, Async_bind.
  destruct (getModelList network registry this log) as [[ml|e] log'];
    [| done].
  destruct (List.find _ _); [| done].
  rewrite inline_base_url. by destruct (mode (config this)).
Qed.

Lemma loadEmbeddingModel_run this k log :
  loadEmbeddingModel network registry this k log
  = match getModelList network registry this log with
    | (Ok ml, log') =>
        match List.find (λ m, strict_eq_str (key m) k) (embedding ml) with
        | None => (Throw (Error msg_embedding_not_found), log')
        | Some _ =>
            (Ok (OllamaEmbedding
                   {| opt_baseURL := resolveBaseURL (config this);
                      opt_model := k;
                      opt_apiKey := match mode (config this) with
                                    | cloud => apiKey (config this)
                                    | local => None
                                    end |}), log')
        end
    | (Throw e, log') => (Throw e, log')
    end.
Proof.
  unfold loadEmbeddingModel, mbind, Async_bind.
  destruct (getModelList network registry this log) as [[ml|e] log'];
    [| done].
  destruct (List.find _ _); [| done].
  rewrite inline_base_url. by destruct (mode (config this)).
Qed.

End ModelList.

Section ModelListClaims.

Variable network : Request → result Response.
Variable registry : string → option ConfiguredProvider.
Implicit Types (this : OllamaProvider) (log : list Request) (k : string).

(** C3: when the catalog fetch resolves to [dm] and the registry holds
    [cp] for this provider's id, [getModelList] resolves to the catalog
    lists followed by the configured lists, for [chat] and for
    [embedding] separately, in that order; nothing is removed, so a key
    occurs in the output as often as in both sources together, and at
    least twice when both sources have it. *)
Theorem getModelList_concatenates this log dm cp log' :
  getDefaultModels network this log = (Ok dm, log') →
  registry (id this) = Some cp →
  ∃ ml,
    getModelList network registry this log = (Ok ml, log')
    ∧ chat ml = (chat dm ++ chatModels cp)%list
    ∧ embedding ml = (embedding dm ++ embeddingModels cp)%list
    ∧ ∀ k,
        occurrences k (chat ml)
        = (occurrences k (chat dm) + occurrences k (chatModels cp))%nat
        ∧ occurrences k (embedding ml)
          = (occurrences k (embedding dm)
             + occurrences k (embeddingModels cp))%nat
        ∧ (has_key k (chat dm) → has_key k (chatModels cp) →
           (2 ≤ occurrences k (chat ml))%nat)
        ∧ (has_key k (embedding dm) → has_key k (embeddingModels cp) →
           (2 ≤ occurrences k (embedding ml))%nat).
Proof.
  intros Hd Hr. eexists. rewrite getModelList_run, Hd, Hr.
  split; [reflexivity |]. simpl.
  split; [reflexivity |]. split; [reflexivity |].
  intros k. rewrite !occurrences_app.
  split; [reflexivity |]. split; [reflexivity |].
  split; intros H1 H2; apply has_key_occurrences in H1, H2; lia.
Qed.

(** C4: over a merged list [ml], [loadChatModel k] rejects with its
    model-not-found error exactly when no model of [chat ml] has the key
    [k], and otherwise resolves to a chat client built from the resolved
    base URL, [k] as the model, and the API key in cloud mode only;
    [loadEmbeddingModel k] does the same over [embedding ml] with an
    embedding client, and the two error messages differ. *)
Theorem loadModel_by_key this k log ml log' :
  getModelList network registry this log = (Ok ml, log') →
  let options :=
    {| opt_baseURL := resolveBaseURL (config this);
       opt_model := k;
       opt_apiKey := match mode (config this) with
                     | cloud => apiKey (config this)
                     | local => None
                     end |} in
  (fails_with ModelNotFoundError
     (loadChatModel network registry this k log).1
   ↔ ¬ has_key k (chat ml))
  ∧ (¬ has_key k (chat ml) →
     loadChatModel network registry this k log
     = (Throw (Error msg_chat_not_found), log'))
  ∧ (has_key k (chat ml) →
     loadChatModel network registry this k log
     = (Ok (OllamaLLM options), log'))
  ∧ (fails_with ModelNotFoundError
       (loadEmbeddingModel network registry this k log).1
     ↔ ¬ has_key k (embedding ml))
  ∧ (¬ has_key k (embedding ml) →
     loadEmbeddingModel network registry this k log
     = (Throw (Error msg_embedding_not_found), log'))
  ∧ (has_key k (embedding ml) →
     loadEmbeddingModel network registry this k log
     = (Ok (OllamaEmbedding options), log'))
  ∧ msg_chat_not_found ≠ msg_embedding_not_found.
Proof.
  intros Hml options.
  rewrite loadChatModel_run, loadEmbeddingModel_run, Hml.
  destruct (find_by_key k (chat ml)) as [Hc1 Hc2].
  destruct (find_by_key k (embedding ml)) as [He1 He2].
  repeat split.
  - intros (e & He & _) Hhas.
    destruct (Hc2 Hhas) as [m Hm]. rewrite Hm in He. discriminate.
  - intros Hno. apply Hc1 in Hno. rewrite Hno.
    eexists. split; [reflexivity | by left].
  - intros Hno. apply Hc1 in Hno. by rewrite Hno.
  - intros Hhas. destruct (Hc2 Hhas) as [m ->]. reflexivity.
  - intros (e & He & _) Hhas.
    destruct (He2 Hhas) as [m Hm]. rewrite Hm in He. discriminate.
  - intros Hno. apply He1 in Hno. rewrite Hno.
    eexists. split; [reflexivity | by right].
  - intros Hno. apply He1 in Hno. by rewrite Hno.
  - intros Hhas. destruct (He2 Hhas) as [m ->]. reflexivity.
  - discriminate.
Qed.

(** C5: every operation resolves the base URL by the same pure function
    of the configuration, [resolveBaseURL]: the catalog request goes to
    that URL followed by [/api/tags]; over a resolved merged list,
    [loadChatModel] builds its client with that URL for every key of the
    chat list and [loadEmbeddingModel] builds its client with that URL for
    every key of the embedding list, and no loader ever returns a client
    with another URL. It is [https://ollama.com] in cloud mode, else the
    configured [baseURL] when set (a non-empty string), else
    [http://localhost:11434], also where the environment makes the
    placeholder of the configuration form a different URL. *)
Theorem base_url_resolution_shared this log :
  (∃ req, (getDefaultModels network this log).2 = (log ++ [req])%list
          ∧ url req = resolveBaseURL (config this) +:+ "/api/tags")
  ∧ (∀ k ml log',
       getModelList network registry this log = (Ok ml, log') →
       has_key k (chat ml) →
       ∃ options,
         loadChatModel network registry this k log
         = (Ok (OllamaLLM options), log')
         ∧ opt_baseURL options = resolveBaseURL (config this))
  ∧ (∀ k ml log',
       getModelList network registry this log = (Ok ml, log') →
       has_key k (embedding ml) →
       ∃ options,
         loadEmbeddingModel network registry this k log
         = (Ok (OllamaEmbedding options), log')
         ∧ opt_baseURL options = resolveBaseURL (config this))
  ∧ (∀ k c log',
       loadChatModel network registry this k log = (Ok c, log') →
       opt_baseURL (client_options c) = resolveBaseURL (config this))
  ∧ (∀ k c log',
       loadEmbeddingModel network registry this k log = (Ok c, log') →
       opt_baseURL (client_options c) = resolveBaseURL (config this))
  ∧ (mode (config this) = cloud →
     resolveBaseURL (config this) = "https://ollama.com")
  ∧ (∀ u, mode (config this) = local → baseURL (config this) = Some u →
          u ≠ "" → resolveBaseURL (config this) = u)
  ∧ (mode (config this) = local → is_set (baseURL (config this)) = false →
     resolveBaseURL (config this) = "http://localhost:11434"
     ∧ ∀ DOCKER, is_set DOCKER = true →
         baseURL_placeholder DOCKER ≠ resolveBaseURL (config this)).
Proof.
  split; [| split; [| split; [| split; [| split; [| split; [| split]]]]]].
  - exists (tags_request (config this)).
    split; [apply getDefaultModels_log |].
    unfold tags_request. cbn [url]. by rewrite inline_base_url.
  - intros k ml log' Hml Hhas. rewrite loadChatModel_run, Hml.
    destruct (proj2 (find_by_key k (chat ml)) Hhas) as [m ->].
    by eexists.
  - intros k ml log' Hml Hhas. rewrite loadEmbeddingModel_run, Hml.
    destruct (proj2 (find_by_key k (embedding ml)) Hhas) as [m ->].
    by eexists.
  - intros k c log'. rewrite loadChatModel_run.
    destruct (getModelList _ _ _ _) as [[ml|e] l]; [| discriminate].
    destruct (List.find _ _); [| discriminate].
    by intros [= <- _].
  - intros k c log'. rewrite loadEmbeddingModel_run.
    destruct (getModelList _ _ _ _) as [[ml|e] l]; [| discriminate].
    destruct (List.find _ _); [| discriminate].
    by intros [= <- _].
  - unfold resolveBaseURL. by intros ->.
  - unfold resolveBaseURL. intros u -> -> Hu.
    by rewrite bool_decide_eq_false_2.
  - intros Hm Hset.
    assert (resolveBaseURL (config this) = "http://localhost:11434") as ->.
    { unfold resolveBaseURL, is_set in *. rewrite Hm.
      destruct (baseURL (config this)) as [u|]; [| done].
      by destruct (bool_decide (u = "")). }
    split; [done |].
    intros DOCKER Hd. unfold baseURL_placeholder. by rewrite Hd.
Qed.

(** C10: [getModelList] relies on the registry holding an entry for this
    provider's id. Once the catalog fetch has resolved, a lookup that
    returns nothing makes [getModelList], and with it both loaders, reject
    with a runtime [TypeError], which is none of the configuration,
    connection and model-not-found errors. When the lookup returns an
    entry, [getModelList] rejects only as [getDefaultModels] does, and
    never with a [TypeError]. *)
Theorem getModelList_needs_registry_entry this log :
  (registry (id this) = None →
   ∀ dm log', getDefaultModels network this log = (Ok dm, log') →
     ∃ e, getModelList network registry this log = (Throw e, log')
          ∧ instanceof_TypeError e = true
          ∧ ¬ ConfigError e ∧ ¬ ConnectionError e ∧ ¬ ModelNotFoundError e
          ∧ ∀ k,
              loadChatModel network registry this k log = (Throw e, log')
              ∧ loadEmbeddingModel network registry this k log
                = (Throw e, log'))
  ∧ (∀ cp, registry (id this) = Some cp →
     ∀ e log', getModelList network registry this log = (Throw e, log') →
       getDefaultModels network this log = (Throw e, log')
       ∧ instanceof_TypeError e = false).
Proof.
  split.
  - intros Hr dm log' Hd. eexists.
    assert (getModelList network registry this log
            = (Throw (TypeError
                 "Cannot read properties of undefined (reading 'embeddingModels')"),
               log')) as Hrun.
    { by rewrite getModelList_run, Hd, Hr. }
    split; [exact Hrun |]. split; [reflexivity |].
    split; [by intros [H|[H|H]] |].
    split; [by intros H |].
    split; [by intros [H|H] |].
    intros k. by rewrite loadChatModel_run, loadEmbeddingModel_run, Hrun.
  - intros cp Hr e log'. rewrite getModelList_run, Hr.
    destruct (getDefaultModels network this log) as [[dm|e0] l] eqn:Hd;
      [discriminate |].
    intros [= <- <-]. split; [reflexivity |].
    by eapply getDefaultModels_never_TypeError.
Qed.

End ModelListClaims.

Lemma getModelList_concatenates_witness :
  ∃ ml,
    getModelList Samples.net_llama3 Samples.registry_llama3
      Samples.local_provider []
    = (Ok ml, [tags_request (config Samples.local_provider)])
    ∧ chat ml = [Samples.llama3; Samples.my_llama3]
    ∧ embedding ml = [Samples.llama3]
    ∧ occurrences "llama3" (chat ml) = 2.
Proof.
  destruct (getModelList_concatenates
              Samples.net_llama3 Samples.registry_llama3
              Samples.local_provider []
              {| embedding := [Samples.llama3]; chat := [Samples.llama3] |}
              {| embeddingModels := []; chatModels := [Samples.my_llama3] |}
              [tags_request (config Samples.local_provider)]
              eq_refl eq_refl)
    as (ml & Hrun & Hchat & Hemb & Hocc).
  exists ml.
  split; [exact Hrun |]. split; [exact Hchat |]. split; [exact Hemb |].
  exact (proj1 (Hocc "llama3")).
Defined.

Lemma loadModel_by_key_witness :
  loadChatModel Samples.net_llama3 Samples.registry_llama3
    Samples.cloud_provider "llama3" []
  = (Ok (OllamaLLM {| opt_baseURL := "https://ollama.com";
                      opt_model := "llama3";
                      opt_apiKey := Some "x" |}),
     [tags_request (config Samples.cloud_provider)])
  ∧ loadEmbeddingModel Samples.net_llama3 Samples.registry_llama3
      Samples.cloud_provider "mistral" []
    = (Throw (Error msg_embedding_not_found),
       [tags_request (config Samples.cloud_provider)]).
Proof.
  pose proof (loadModel_by_key
                Samples.net_llama3 Samples.registry_llama3
                Samples.cloud_provider) as H.
  split.
  - refine (proj1 (proj2 (proj2 (H "llama3" [] _ _ eq_refl))) _).
    exists Samples.llama3. split; [left | reflexivity].
  - refine (proj1 (proj2 (proj2 (proj2 (proj2 (H "mistral" [] _ _ eq_refl)))))
              _).
    intros (m & Hin & Hkey).
    apply list_elem_of_singleton in Hin. subst m. discriminate Hkey.
Defined.

Lemma base_url_resolution_shared_witness :
  (∃ options,
     loadChatModel Samples.net_llama3 Samples.registry_llama3
       Samples.local_provider "llama3" []
     = (Ok (OllamaLLM options),
        [tags_request (config Samples.local_provider)])
     ∧ opt_baseURL options = resolveBaseURL (config Samples.local_provider))
  ∧ (∃ options,
       loadEmbeddingModel Samples.net_llama3 Samples.registry_llama3
         Samples.local_provider "llama3" []
       = (Ok (OllamaEmbedding options),
          [tags_request (config Samples.local_provider)])
       ∧ opt_baseURL options = resolveBaseURL (config Samples.local_provider)).
Proof.
  pose proof (base_url_resolution_shared
                Samples.net_llama3 Samples.registry_llama3
                Samples.local_provider []) as (_ & Hchat & Hemb & _).
  split.
  - refine (Hchat "llama3" _ _ eq_refl _).
    exists Samples.llama3. split; [left | reflexivity].
  - refine (Hemb "llama3" _ _ eq_refl _).
    exists Samples.llama3. split; [left | reflexivity].
Defined.

Lemma getModelList_needs_registry_entry_witness :
  ∃ e,
    getModelList Samples.net_llama3 Samples.registry_empty
      Samples.local_provider []
    = (Throw e, [tags_request (config Samples.local_provider)])
    ∧ instanceof_TypeError e = true.
Proof.
  destruct (proj1 (getModelList_needs_registry_entry
                     Samples.net_llama3 Samples.registry_empty
                     Samples.local_provider [])
              eq_refl _ _ eq_refl)
    as (e & Hrun & Hcls & _).
  exists e. split; [exact Hrun | exact Hcls].
Defined.

(** ** Further properties of the validation *)

Lemma effective_mode_cloud (raw : JSValue) :
  effective_mode raw = JStr "cloud" ↔ prop raw "mode" = JStr "cloud".
Proof.
  unfold effective_mode, or_else.
  destruct (ToBoolean (prop raw "mode")) eqn:Hm; [done |].
  split; [discriminate |]. intros H. by rewrite H in Hm.
Qed.

(** [parseAndValidate] reads [mode], [baseURL] and [apiKey] and nothing
    else: two objects that agree on these three properties are validated
    alike, whatever else they hold. *)
Theorem parseAndValidate_reads_three_properties
    (f g : gmap string JSValue) :
  f !! "mode" = g !! "mode" →
  f !! "baseURL" = g !! "baseURL" →
  f !! "apiKey" = g !! "apiKey" →
  parseAndValidate (JObj f) = parseAndValidate (JObj g).
Proof.
  intros Hm Hu Hk. unfold parseAndValidate, prop.
  by rewrite Hm, Hu, Hk.
Qed.

Lemma parseAndValidate_reads_three_properties_witness :
  parseAndValidate
    (JObj (<[ "timeout" := JNum "30" ]> (<[ "mode" := JStr "cloud" ]>
                                           {[ "apiKey" := JStr "x" ]})))
  = parseAndValidate Samples.raw_cloud_x.
Proof.
  exact (parseAndValidate_reads_three_properties _ _ eq_refl eq_refl eq_refl).
Defined.

(** An array passes the object guard and has none of the three properties:
    every array is accepted as the default local configuration. *)
Theorem parseAndValidate_accepts_arrays (elems : list JSValue) :
  parseAndValidate (JArr elems)
  = Ok {| mode := local; baseURL := None; apiKey := None |}.
Proof. reflexivity. Qed.

(** The invariant of a validated configuration: it is in cloud mode exactly
    when the raw mode is the string [cloud], and then the raw [apiKey] was
    truthy and the configuration holds its string form. In local mode
    nothing is required of [baseURL] or [apiKey]. *)
Theorem parseAndValidate_cloud_has_key (raw : JSValue) (cfg : OllamaConfig) :
  parseAndValidate raw = Ok cfg →
  (mode cfg = cloud ↔ prop raw "mode" = JStr "cloud")
  ∧ (mode cfg = cloud →
     ToBoolean (prop raw "apiKey") = true
     ∧ ∃ s, ToString (prop raw "apiKey") = Ok s ∧ apiKey cfg = Some s).
Proof.
  intros Hok.
  destruct (parseAndValidate_cases raw)
    as [[_ E]|[(_ & _ & _ & E)|[(_ & _ & _ & E)|(_ & Hm & E)]]];
    rewrite E in Hok; try discriminate.
  apply returned_config_ok in Hok as (_ & Ha & ->).
  rewrite <- effective_mode_cloud.
  destruct Hm as [Hl|[Hc Hk]].
  - rewrite Hl. split; [split; discriminate | discriminate].
  - rewrite Hc. split; [done |]. intros _.
    split; [done |]. unfold string_or_undefined in Ha. rewrite Hk in Ha.
    destruct (ToString (prop raw "apiKey")) as [s|e]; simpl in Ha;
      [| discriminate].
    injection Ha as <-. by exists s.
Qed.

Lemma parseAndValidate_cloud_has_key_witness :
  ToBoolean (prop MoreSamples.raw_cloud_with_url "apiKey") = true
  ∧ ∃ s, ToString (prop MoreSamples.raw_cloud_with_url "apiKey") = Ok s
         ∧ Some "secret" = Some s.
Proof.
  exact (proj2 (parseAndValidate_cloud_has_key
                  MoreSamples.raw_cloud_with_url
                  {| mode := cloud; baseURL := Some "http://x:1";
                     apiKey := Some "secret" |} eq_refl) eq_refl).
Defined.

(** The form and the validator agree on the mode: a non-empty mode string
    is refused as an invalid mode exactly when the mode field of
    [getProviderConfigFields] does not offer it; given a truthy API key
    and values of [baseURL] and [apiKey] that [String(...)] converts, it is
    accepted exactly when the field offers it; and leaving the mode out is
    the same as supplying the default the field declares. *)
Theorem mode_field_matches_validator
    (DOCKER : option string) (f : UIConfigField) :
  f ∈ getProviderConfigFields DOCKER →
  field_key f = "mode" →
  (∀ (fields : gmap string JSValue) (s : string),
     s ≠ "" →
     (parseAndValidate (JObj (<[ "mode" := JStr s ]> fields))
      = Throw (Error msg_invalid_mode)
      ↔ s ∉ offered_values f))
  ∧ (∀ (fields : gmap string JSValue) (s : string) b a,
       s ≠ "" →
       ToBoolean (prop (JObj fields) "apiKey") = true →
       string_or_undefined (prop (JObj fields) "baseURL") = Ok b →
       string_or_undefined (prop (JObj fields) "apiKey") = Ok a →
       (succeeds (parseAndValidate (JObj (<[ "mode" := JStr s ]> fields)))
        ↔ s ∈ offered_values f))
  ∧ (∃ d, field_default f = Some d
          ∧ ∀ fields : gmap string JSValue,
              parseAndValidate (JObj (delete "mode" fields))
              = parseAndValidate (JObj (<[ "mode" := JStr d ]> fields))).
Proof.
  intros Hin Hkey.
  unfold getProviderConfigFields, providerConfigFields in Hin.
  apply elem_of_cons in Hin as [->|Hin];
    [| apply elem_of_cons in Hin as [->|Hin];
       [discriminate Hkey
       | apply list_elem_of_singleton in Hin; subst f; discriminate Hkey]].
  clear Hkey. unfold offered_values. cbn [field_options map option_value].
  assert (∀ s, s ∈ ["local"; "cloud"] ↔ s = "local" ∨ s = "cloud") as Hoff.
  { intros s. rewrite elem_of_cons, list_elem_of_singleton. done. }
  assert (∀ (fields : gmap string JSValue) s, s ≠ "" →
            effective_mode (JObj (<[ "mode" := JStr s ]> fields)) = JStr s)
    as Hem.
  { intros fields s Hs. unfold effective_mode, or_else, prop.
    rewrite lookup_insert_eq.
    change (default JUndefined (Some (JStr s))) with (JStr s).
    assert (ToBoolean (JStr s) = true) as ->; [| done].
    unfold ToBoolean. by rewrite bool_decide_eq_false_2. }
  assert (∀ (fields : gmap string JSValue) s k, k ≠ "mode" →
            prop (JObj (<[ "mode" := JStr s ]> fields)) k
            = prop (JObj fields) k) as Hother.
  { intros fields s k Hk. unfold prop. by rewrite lookup_insert_ne. }
  split; [| split].
  - intros fields s Hs. rewrite Hoff.
    set (raw := JObj (<[ "mode" := JStr s ]> fields)).
    destruct (parseAndValidate_cases raw)
      as [[Ho _]|[(_ & Hl & Hc & E)|[(_ & Hc & _ & E)|(_ & Hm & E)]]].
    + discriminate Ho.
    + unfold raw in Hl, Hc. rewrite Hem in Hl, Hc by done. rewrite E.
      split; [| done]. intros _ [->| ->]; contradiction.
    + unfold raw in Hc. rewrite Hem in Hc by done. rewrite E.
      injection Hc as ->. split; [discriminate |]. intros Hno.
      exfalso. apply Hno. by right.
    + unfold raw in Hm. rewrite Hem in Hm by done. rewrite E. split.
      * intros Hret. apply returned_config_error in Hret. discriminate Hret.
      * intros Hno. exfalso. apply Hno.
        destruct Hm as [[= ->]|[[= ->] _]]; [by left | by right].
  - intros fields s b a Hs Hk Hb Ha. rewrite Hoff.
    set (raw := JObj (<[ "mode" := JStr s ]> fields)).
    destruct (parseAndValidate_cases raw)
      as [[Ho _]|[(_ & Hl & Hc & E)|[(_ & _ & Hf & _)|(_ & Hm & E)]]].
    + discriminate Ho.
    + unfold raw in Hl, Hc. rewrite Hem in Hl, Hc by done. rewrite E. split.
      * intros [c Hc']. discriminate Hc'.
      * intros [->| ->]; contradiction.
    + unfold raw in Hf. rewrite Hother in Hf by done. congruence.
    + unfold raw in Hm. rewrite Hem in Hm by done. rewrite E. split.
      * intros _. destruct Hm as [[= ->]|[[= ->] _]]; [by left | by right].
      * intros _. unfold returned_config, raw.
        rewrite !Hother by done. rewrite Hb. cbn [mbind result_bind].
        rewrite Ha. by eexists.
  - exists "local". split; [reflexivity |].
    intros fields. unfold parseAndValidate, or_else, prop.
    rewrite lookup_delete_eq, lookup_insert_eq.
    by rewrite !lookup_delete_ne, !lookup_insert_ne.
Qed.

Lemma mode_field_matches_validator_witness :
  (parseAndValidate (JObj (<[ "mode" := JStr "remote" ]> ∅))
   = Throw (Error msg_invalid_mode)
   ↔ "remote" ∉ ["local"; "cloud"])
  ∧ (succeeds (parseAndValidate
                 (JObj (<[ "mode" := JStr "cloud" ]>
                          {[ "apiKey" := JStr "x" ]})))
     ↔ "cloud" ∈ ["local"; "cloud"]).
Proof.
  pose proof (mode_field_matches_validator None
                (mkUIConfigField "select" "Mode" "mode"
                   "Choose between Local Ollama or Ollama Cloud" true
                   (Some "local")
                   (Some [ mkSelectOption "Local (Self-hosted)" "local";
                           mkSelectOption "Cloud (ollama.com)" "cloud" ])
                   None None "server")
                (list_elem_of_here _ _) eq_refl) as (Hrefused & Haccepted & _).
  split.
  - apply (Hrefused ∅ "remote"). discriminate.
  - apply (Haccepted {[ "apiKey" := JStr "x" ]} "cloud" None (Some "x"));
      [discriminate | reflexivity | reflexivity | reflexivity].
Defined.

(** ** Further properties of the catalog fetch and the loaders *)

Section Operations.

Variable network : Request → result Response.
Variable registry : string → option ConfiguredProvider.
Implicit Types (this : OllamaProvider) (log : list Request) (k : string).

Lemma getModelList_log this log :
  (getModelList network registry this log).2
  = (log ++ [tags_request (config this)])%list.
Proof.
  rewrite getModelList_run.
  pose proof (getDefaultModels_log network this log) as Hlog.
  destruct (getDefaultModels network this log) as [[dm|e] l];
    simpl in *; [| done].
  by destruct (registry (id this)).
Qed.

Lemma loadChatModel_log this k log :
  (loadChatModel network registry this k log).2
  = (log ++ [tags_request (config this)])%list.
Proof.
  rewrite loadChatModel_run.
  pose proof (getModelList_log this log) as Hlog.
  destruct (getModelList network registry this log) as [[ml|e] l];
    simpl in *; [| done].
  by destruct (List.find _ _).
Qed.

Lemma loadEmbeddingModel_log this k log :
  (loadEmbeddingModel network registry this k log).2
  = (log ++ [tags_request (config this)])%list.
Proof.
  rewrite loadEmbeddingModel_run.
  pose proof (getModelList_log this log) as Hlog.
  destruct (getModelList network registry this log) as [[ml|e] l];
    simpl in *; [| done].
  by destruct (List.find _ _).
Qed.

(** Every operation sends exactly one request, the [GET] of the catalog,
    whether it resolves or rejects; nothing is cached, so a chat load
    followed by an embedding load asks the server twice. *)
Theorem every_operation_fetches_once this k log :
  let req := tags_request (config this) in
  method req = "GET"
  ∧ (getDefaultModels network this log).2 = (log ++ [req])%list
  ∧ (getModelList network registry this log).2 = (log ++ [req])%list
  ∧ (loadChatModel network registry this k log).2 = (log ++ [req])%list
  ∧ (loadEmbeddingModel network registry this k log).2 = (log ++ [req])%list
  ∧ (loadEmbeddingModel network registry this k
       (loadChatModel network registry this k log).2).2
    = (log ++ [req; req])%list.
Proof.
  intros req. split; [reflexivity |].
  split; [apply getDefaultModels_log |].
  split; [apply getModelList_log |].
  split; [apply loadChatModel_log |].
  split; [apply loadEmbeddingModel_log |].
  rewrite loadEmbeddingModel_log, loadChatModel_log.
  by rewrite <- app_assoc.
Qed.

Lemma try_block_error (answer : result Response) (e : JSError) :
  try_block answer = Throw e →
  answer = Throw e
  ∨ (∃ res, answer = Ok res ∧ json res = Throw e)
  ∨ (∃ res data, answer = Ok res ∧ json res = Ok data
                 ∧ models_of_data data = Throw e).
Proof.
  unfold try_block. destruct answer as [res|e0]; simpl.
  - destruct (json res) as [data|e1] eqn:Hj; simpl.
    + intros Hm. right; right. eauto.
    + intros [= ->]. right; left. eauto.
  - intros [= ->]. by left.
Qed.

(** What a caller of [getDefaultModels] can catch: the connection error,
    or an error that is no [TypeError] and is the very error [fetch] or
    [res.json()] rejected with. *)
Theorem getDefaultModels_rejections this log e log' :
  getDefaultModels network this log = (Throw e, log') →
  e = Error msg_connect
  ∨ (instanceof_TypeError e = false
     ∧ (network (tags_request (config this)) = Throw e
        ∨ ∃ res, network (tags_request (config this)) = Ok res
                 ∧ json res = Throw e)).
Proof.
  rewrite getDefaultModels_run.
  destruct (try_block _) as [ml|e0] eqn:Ht; [discriminate |].
  intros [= <- _]. unfold rethrown.
  destruct (instanceof_TypeError e0) eqn:He; [by left |].
  right. split; [done |].
  destruct (try_block_error _ _ Ht) as [H|[H|(res & data & _ & _ & Hm)]];
    [by left | by right |].
  apply models_of_data_error in Hm. congruence.
Qed.

Lemma mapM_to_model_nullish (entries : list JSValue) :
  Exists (λ m, nullish m = true) entries →
  ∃ e, mapM to_model entries = Throw e.
Proof.
  induction entries as [|m l IH]; intros Hex.
  - by apply Exists_nil in Hex.
  - rewrite mapM_cons.
    destruct (to_model_cases m) as [[Hm ->]|(e & -> & _)]; [| by eexists].
    apply Exists_cons in Hex as [Hex|Hex]; [congruence |].
    destruct (IH Hex) as [e ->]. by eexists.
Qed.

(** The projection is all or nothing: one [null] or [undefined] entry in
    the [models] array makes the whole listing reject (with the connection
    error), however many well-formed entries surround it. *)
Theorem null_entry_voids_catalog this log res data entries :
  network (tags_request (config this)) = Ok res →
  json res = Ok data →
  prop data "models" = JArr entries →
  Exists (λ m, nullish m = true) entries →
  getDefaultModels network this log
  = (Throw (Error msg_connect), (log ++ [tags_request (config this)])%list).
Proof.
  intros Hn Hj Hm Hex.
  destruct (mapM_to_model_nullish entries Hex) as [e He].
  assert (models_of_data data = Throw e) as Hd.
  { unfold models_of_data, get_prop.
    assert (nullish data = false) as -> by (by destruct data).
    cbn [mbind result_bind]. rewrite Hm. cbn [array_map mbind result_bind].
    by rewrite He. }
  rewrite getDefaultModels_run, Hn. unfold try_block. simpl.
  rewrite Hj. simpl. rewrite Hd. unfold rethrown.
  by rewrite (models_of_data_error data e Hd).
Qed.

(** The HTTP status is never looked at: two answers with the same body
    outcome give the same result, so a well-formed catalog under an error
    status is a catalog. *)
Theorem status_is_ignored (network' : Request → result Response)
    this log res res' :
  network (tags_request (config this)) = Ok res →
  network' (tags_request (config this)) = Ok res' →
  json res = json res' →
  getDefaultModels network this log = getDefaultModels network' this log.
Proof.
  intros Hn Hn' Hj. rewrite !getDefaultModels_run, Hn, Hn'.
  unfold try_block. simpl. by rewrite Hj.
Qed.

(** When the server cannot be reached, listing and loading reject with the
    connection error for every key, also for a model the registry holds:
    the registry is not consulted and no model-not-found error is raised. *)
Theorem unreachable_server_fails_every_load this k log e :
  network (tags_request (config this)) = Throw e →
  instanceof_TypeError e = true →
  let log' := (log ++ [tags_request (config this)])%list in
  getModelList network registry this log = (Throw (Error msg_connect), log')
  ∧ loadChatModel network registry this k log
    = (Throw (Error msg_connect), log')
  ∧ loadEmbeddingModel network registry this k log
    = (Throw (Error msg_connect), log').
Proof.
  intros Hn He log'.
  assert (getModelList network registry this log
          = (Throw (Error msg_connect), log')) as Hml.
  { rewrite getModelList_run, getDefaultModels_run, Hn. simpl.
    unfold rethrown. by rewrite He. }
  split; [exact Hml |].
  by rewrite loadChatModel_run, loadEmbeddingModel_run, Hml.
Qed.

End Operations.

Section Loading.

Variable network : Request → result Response.
Variable registry : string → option ConfiguredProvider.
Implicit Types (this : OllamaProvider) (log : list Request) (k : string).

Lemma has_key_app_l k (l1 l2 : list Model) :
  has_key k l1 → has_key k (l1 ++ l2).
Proof.
  intros (m & Hin & Hk). exists m. split; [| done].
  apply elem_of_app. by left.
Qed.

Lemma has_key_app_r k (l1 l2 : list Model) :
  has_key k l2 → has_key k (l1 ++ l2).
Proof.
  intros (m & Hin & Hk). exists m. split; [| done].
  apply elem_of_app. by right.
Qed.

Lemma has_key_app_inv k (l1 l2 : list Model) :
  has_key k (l1 ++ l2) → has_key k l1 ∨ has_key k l2.
Proof.
  intros (m & Hin & Hk).
  apply elem_of_app in Hin as [Hin|Hin]; [left | right]; by exists m.
Qed.

Lemma has_key_project k (entries : list JSValue) (entry : JSValue) :
  entry ∈ entries → prop entry "model" = JStr k →
  has_key k (map project entries).
Proof.
  intros Hin Hk. exists (project entry). split; [| exact Hk].
  apply list_elem_of_In, in_map. by apply list_elem_of_In.
Qed.

(** The catalog does not tell chat models from embedding models: once the
    registry holds an entry for the provider, every well-formed catalog
    entry with a string [model] loads both as a chat model and as an
    embedding model. *)
Theorem catalog_model_loads_both_ways
    this k log res data entries cp entry :
  network (tags_request (config this)) = Ok res →
  json res = Ok data →
  prop data "models" = JArr entries →
  Forall (λ m, nullish m = false) entries →
  registry (id this) = Some cp →
  entry ∈ entries →
  prop entry "model" = JStr k →
  let options :=
    {| opt_baseURL := resolveBaseURL (config this);
       opt_model := k;
       opt_apiKey := match mode (config this) with
                     | cloud => apiKey (config this)
                     | local => None
                     end |} in
  let log' := (log ++ [tags_request (config this)])%list in
  loadChatModel network registry this k log = (Ok (OllamaLLM options), log')
  ∧ loadEmbeddingModel network registry this k log
    = (Ok (OllamaEmbedding options), log').
Proof.
  intros Hn Hj Hm Hent Hreg Hin Hk options log'.
  assert (has_key k (map project entries)) as Hhas
    by (by eapply has_key_project).
  rewrite loadChatModel_run, loadEmbeddingModel_run, getModelList_run.
  rewrite getDefaultModels_run, Hn. unfold try_block. simpl.
  rewrite Hj. simpl.
  rewrite (models_of_data_array data entries Hm Hent), Hreg. simpl.
  destruct (proj2 (find_by_key k (map project entries ++ chatModels cp))
              (has_key_app_l _ _ _ Hhas)) as [m1 ->].
  destruct (proj2 (find_by_key k (map project entries ++ embeddingModels cp))
              (has_key_app_l _ _ _ Hhas)) as [m2 ->].
  done.
Qed.

(** The configured lists are kept apart: a model the registry lists for
    chat loads as a chat model whatever the catalog holds, and it is
    refused as an embedding model unless the catalog or the registry's
    embedding list has its key too. *)
Theorem registry_chat_model_loads_as_chat
    this k log dm cp log' (m : Model) :
  getDefaultModels network this log = (Ok dm, log') →
  registry (id this) = Some cp →
  m ∈ chatModels cp →
  key m = JStr k →
  (∃ options,
     loadChatModel network registry this k log
     = (Ok (OllamaLLM options), log')
     ∧ opt_model options = k)
  ∧ (¬ has_key k (embedding dm) → ¬ has_key k (embeddingModels cp) →
     loadEmbeddingModel network registry this k log
     = (Throw (Error msg_embedding_not_found), log')).
Proof.
  intros Hd Hreg Hin Hk.
  rewrite loadChatModel_run, loadEmbeddingModel_run, getModelList_run.
  rewrite Hd, Hreg. simpl. split.
  - destruct (proj2 (find_by_key k (chat dm ++ chatModels cp))) as [m1 ->].
    { apply has_key_app_r. by exists m. }
    by eexists.
  - intros Hno1 Hno2.
    assert (¬ has_key k (embedding dm ++ embeddingModels cp)) as Hno.
    { intros H. apply has_key_app_inv in H as [H|H]; contradiction. }
    apply (proj1 (find_by_key k _)) in Hno. by rewrite Hno.
Qed.

(** A validated cloud configuration with a string key [s] asks
    [https://ollama.com/api/tags] with [Authorization: Bearer s], whatever
    [baseURL] the raw configuration carried. *)
Theorem validated_cloud_config_request raw cfg s this log :
  parseAndValidate raw = Ok cfg →
  prop raw "mode" = JStr "cloud" →
  prop raw "apiKey" = JStr s →
  config this = cfg →
  (getDefaultModels network this log).2
  = (log ++ [ {| url := "https://ollama.com/api/tags";
                 method := "GET";
                 headers := <[ "Authorization" := "Bearer " +:+ s ]>
                              {[ "Content-type" := "application/json" ]} |} ])%list.
Proof.
  intros Hok Hmode Hkey <-. rewrite getDefaultModels_log. f_equal. f_equal.
  destruct (parseAndValidate_cases raw)
    as [[_ E]|[(_ & _ & _ & E)|[(_ & _ & _ & E)|(_ & Hm & E)]]];
    rewrite E in Hok; try discriminate.
  apply returned_config_ok in Hok as (_ & Ha & Hm').
  apply effective_mode_cloud in Hmode.
  destruct Hm as [Hl|[_ Ht]]; [congruence |].
  rewrite Hmode in Hm'. rewrite Hkey in Ha, Ht.
  change (ToBoolean (JStr s)) with (negb (bool_decide (s = ""))) in Ht.
  apply negb_true_iff in Ht.
  rewrite string_or_undefined_str, Ht in Ha. injection Ha as Ha.
  unfold tags_request. rewrite Hm', <- Ha.
  cbn [as_mode strict_eq_str is_cloud andb is_set default].
  by rewrite Ht.
Qed.

(** A validated local configuration with a non-empty string [baseURL] asks
    that URL, taken verbatim, followed by [/api/tags], and sends no
    [Authorization] header even when the raw configuration had an API
    key. *)
Theorem validated_local_config_request raw cfg u this log :
  parseAndValidate raw = Ok cfg →
  mode cfg = local →
  prop raw "baseURL" = JStr u →
  u ≠ "" →
  config this = cfg →
  (getDefaultModels network this log).2
  = (log ++ [ {| url := u +:+ "/api/tags";
                 method := "GET";
                 headers := {[ "Content-type" := "application/json" ]} |} ])%list.
Proof.
  intros Hok Hmode Hurl Hu <-. rewrite getDefaultModels_log. f_equal. f_equal.
  destruct (parseAndValidate_cases raw)
    as [[_ E]|[(_ & _ & _ & E)|[(_ & _ & _ & E)|(_ & _ & E)]]];
    rewrite E in Hok; try discriminate.
  apply returned_config_ok in Hok as (Hb & _ & _).
  rewrite Hurl, string_or_undefined_str in Hb.
  rewrite (bool_decide_eq_false_2 (u = "")) in Hb by done.
  injection Hb as Hb.
  unfold tags_request. rewrite Hmode, <- Hb.
  cbn [is_cloud andb or_default].
  by rewrite (bool_decide_eq_false_2 (u = "")).
Qed.

End Loading.

Lemma getDefaultModels_rejections_witness :
  mkJSError ClsSyntaxError "Unexpected token < in JSON at position 0"
  = Error msg_connect
  ∨ (instanceof_TypeError
       (mkJSError ClsSyntaxError "Unexpected token < in JSON at position 0")
     = false
     ∧ (Samples.net_bad_json (tags_request (config Samples.local_provider))
        = Throw (mkJSError ClsSyntaxError
                   "Unexpected token < in JSON at position 0")
        ∨ ∃ res,
            Samples.net_bad_json (tags_request (config Samples.local_provider))
            = Ok res
            ∧ json res
              = Throw (mkJSError ClsSyntaxError
                         "Unexpected token < in JSON at position 0"))).
Proof.
  exact (getDefaultModels_rejections Samples.net_bad_json
           Samples.local_provider [] _ _ eq_refl).
Defined.

Lemma null_entry_voids_catalog_witness :
  getDefaultModels MoreSamples.net_with_null Samples.local_provider []
  = (Throw (Error msg_connect),
     [tags_request (config Samples.local_provider)]).
Proof.
  refine (null_entry_voids_catalog MoreSamples.net_with_null
            Samples.local_provider [] _ _ [Samples.llama3_entry; JNull]
            eq_refl eq_refl eq_refl _).
  right. left. reflexivity.
Defined.

Lemma status_is_ignored_witness :
  getDefaultModels Samples.net_llama3 Samples.local_provider []
  = getDefaultModels MoreSamples.net_llama3_500 Samples.local_provider [].
Proof.
  exact (status_is_ignored Samples.net_llama3 MoreSamples.net_llama3_500
           Samples.local_provider [] _ _ eq_refl eq_refl eq_refl).
Defined.

Lemma unreachable_server_fails_every_load_witness :
  loadChatModel Samples.net_down Samples.registry_llama3
    Samples.local_provider "llama3" []
  = (Throw (Error msg_connect),
     [tags_request (config Samples.local_provider)]).
Proof.
  exact (proj1 (proj2 (unreachable_server_fails_every_load
                         Samples.net_down Samples.registry_llama3
                         Samples.local_provider "llama3" []
                         (TypeError "fetch failed") eq_refl eq_refl))).
Defined.

Lemma catalog_model_loads_both_ways_witness :
  ∃ options,
    loadChatModel Samples.net_llama3 Samples.registry_llama3
      Samples.local_provider "llama3" []
    = (Ok (OllamaLLM options),
       [tags_request (config Samples.local_provider)])
    ∧ loadEmbeddingModel Samples.net_llama3 Samples.registry_llama3
        Samples.local_provider "llama3" []
      = (Ok (OllamaEmbedding options),
         [tags_request (config Samples.local_provider)]).
Proof.
  eexists.
  refine (catalog_model_loads_both_ways
            Samples.net_llama3 Samples.registry_llama3
            Samples.local_provider "llama3" [] _ _
            [Samples.llama3_entry] _ Samples.llama3_entry
            eq_refl eq_refl eq_refl _ eq_refl _ eq_refl).
  - apply List.Forall_cons; [reflexivity | apply List.Forall_nil].
  - left.
Defined.

Lemma registry_chat_model_loads_as_chat_witness :
  (∃ options,
     loadChatModel Samples.net_llama3 MoreSamples.registry_mistral
       Samples.local_provider "mistral" []
     = (Ok (OllamaLLM options),
        [tags_request (config Samples.local_provider)])
     ∧ opt_model options = "mistral")
  ∧ loadEmbeddingModel Samples.net_llama3 MoreSamples.registry_mistral
      Samples.local_provider "mistral" []
    = (Throw (Error msg_embedding_not_found),
       [tags_request (config Samples.local_provider)]).
Proof.
  destruct (registry_chat_model_loads_as_chat
              Samples.net_llama3 MoreSamples.registry_mistral
              Samples.local_provider "mistral" []
              {| embedding := [Samples.llama3]; chat := [Samples.llama3] |}
              {| embeddingModels := []; chatModels := [MoreSamples.mistral] |}
              [tags_request (config Samples.local_provider)]
              MoreSamples.mistral eq_refl eq_refl
              (list_elem_of_here _ _) eq_refl) as [Hchat Hemb].
  split; [exact Hchat |]. apply Hemb.
  - intros (m & Hin & Hk).
    apply list_elem_of_singleton in Hin. subst m. discriminate Hk.
  - intros (m & Hin & _). by apply elem_of_nil in Hin.
Defined.

Lemma validated_cloud_config_request_witness :
  (getDefaultModels Samples.net_llama3
     {| id := "p4"; providerName := "Ollama Cloud";
        config := {| mode := cloud; baseURL := Some "http://x:1";
                     apiKey := Some "secret" |} |} []).2
  = [ {| url := "https://ollama.com/api/tags";
         method := "GET";
         headers := <[ "Authorization" := "Bearer secret" ]>
                      {[ "Content-type" := "application/json" ]} |} ].
Proof.
  exact (validated_cloud_config_request Samples.net_llama3
           MoreSamples.raw_cloud_with_url
           {| mode := cloud; baseURL := Some "http://x:1";
              apiKey := Some "secret" |}
           "secret"
           {| id := "p4"; providerName := "Ollama Cloud";
              config := {| mode := cloud; baseURL := Some "http://x:1";
                           apiKey := Some "secret" |} |}
           [] eq_refl eq_refl eq_refl eq_refl).
Defined.

Lemma validated_local_config_request_witness :
  (getDefaultModels Samples.net_llama3
     MoreSamples.local_with_key_provider []).2
  = [ {| url := "http://x:1/api/tags";
         method := "GET";
         headers := {[ "Content-type" := "application/json" ]} |} ].
Proof.
  refine (validated_local_config_request Samples.net_llama3
            MoreSamples.raw_local_with_key MoreSamples.local_with_key
            "http://x:1" MoreSamples.local_with_key_provider []
            eq_refl eq_refl eq_refl _ eq_refl).
  discriminate.
Defined.
